(** * Denomination resolution of the oracle exporter (main.go)

    A shallow embedding of [setDenom] and
    [checkAndHandleDenomInfoProvidedByUser] of main.go, together with the
    part of Go's [math] package they call ([math.Pow10]) over an IEEE-754
    binary64 model, and the properties of the resolver stated in the
    specification. *)

From Stdlib Require Import ZArith String List Bool Lia.
From Stdlib Require Import Floats.SpecFloat.
Import ListNotations.

Local Open Scope string_scope.
Local Open Scope list_scope.
Local Open Scope Z_scope.

(** ** Go's float64: IEEE-754 binary64 *)

Module Float64.

(** A [float64] is a binary64 value: 53 bits of precision, infinities at
    exponent 1024. *)
Definition float64 : Type := spec_float.

Definition prec : Z := 53.
Definition emax : Z := 1024.

Definition mul (x y : float64) : float64 := SFmul prec emax x y.
Definition div (x y : float64) : float64 := SFdiv prec emax x y.

(** Go's [x == y], [x != y] and [x < y] on float64 (false, true and false
    on a NaN operand). *)
Definition eqb (x y : float64) : bool := SFeqb x y.
Definition neqb (x y : float64) : bool := negb (SFeqb x y).
Definition ltb (x y : float64) : bool := SFltb x y.

(** The float64 a Go constant [p/q] converts to: the exact quotient rounded
    to the nearest binary64, ties to even. *)
Definition of_ratio (p q : positive) : float64 :=
  SFdiv prec emax (S754_finite false p 0) (S754_finite false q 0).

Definition of_pos (p : positive) : float64 := of_ratio p 1.

Definition zero : float64 := S754_zero false.
Definition one : float64 := of_pos 1.
Definition pos_inf : float64 := S754_infinity false.

(** [denotes x z]: the float [x] is finite and its value is the integer
    [z], with no rounding error. *)
Definition denotes (x : float64) (z : Z) : bool :=
  match x with
  | S754_zero _ => z =? 0
  | S754_finite s m e =>
      let v := if s then Z.neg m else Z.pos m in
      if 0 <=? e then v * 2 ^ e =? z else v =? z * 2 ^ (- e)
  | _ => false
  end.

(** [x] is a canonical binary64 value. *)
Definition valid (x : float64) : bool := valid_binary prec emax x.

(** [within_half_ulp x p q]: the float [x] is positive and finite, and lies
    within half a unit in its last place of the rational [p/q]. *)
Definition within_half_ulp (x : float64) (p q : positive) : bool :=
  match x with
  | S754_finite false m e =>
      if 0 <=? e
      then 2 * Z.abs (Z.pos m * 2 ^ e * Z.pos q - Z.pos p) <=? 2 ^ e * Z.pos q
      else 2 * Z.abs (Z.pos m * Z.pos q - Z.pos p * 2 ^ (- e)) <=? Z.pos q
  | _ => false
  end.

End Float64.

Import Float64.

(** ** Go's integer conversions (64-bit [int], as on the linux targets the
    image is built for) *)

Definition uint64_range (u : Z) : Prop := 0 <= u < 2 ^ 64.

(** [int(u)] for [u : uint64]: the same 64 bits read as two's complement. *)
Definition int_of_uint64 (u : Z) : Z :=
  if u <? 2 ^ 63 then u else u - 2 ^ 64.

(** [int(u)] for [u : uint32]: every value fits. *)
Definition int_of_uint32 (u : Z) : Z := u.

(** ** math.Pow10 *)

Module GoMath.

(** The float64 the literal [1e<k>] denotes, for [k >= 0], and [1e-<k>]. *)
Definition lit_1e (k : Z) : float64 := of_pos (Z.to_pos (10 ^ k)).
Definition lit_1e_neg (k : Z) : float64 := of_ratio 1 (Z.to_pos (10 ^ k)).

Definition upto (n : nat) : list Z := map Z.of_nat (seq 0 n).

(** [pow10tab] stores 10**i for i < 32. *)
Definition pow10tab : list float64 := map lit_1e (upto 32).

(** [pow10postab32] stores 10**(i*32) at index i, up to 1e288. *)
Definition pow10postab32 : list float64 :=
  map (fun i => lit_1e (i * 32)) (upto 10).

(** [pow10negtab32] stores 10**(-i*32) at index i, up to 1e-320. *)
Definition pow10negtab32 : list float64 :=
  map (fun i => lit_1e_neg (i * 32)) (upto 11).

Definition index (tab : list float64) (i : Z) : float64 :=
  nth (Z.to_nat i) tab S754_nan.

(** [Pow10(n)]: 10**n; 0 for n < -323 and +Inf for n > 308. *)
Definition Pow10 (n : Z) : float64 :=
  if (0 <=? n) && (n <=? 308) then
    mul (index pow10postab32 (n / 32)) (index pow10tab (n mod 32))
  else if (-323 <=? n) && (n <=? 0) then
    div (index pow10negtab32 ((- n) / 32)) (index pow10tab ((- n) mod 32))
  else if 0 <? n then pos_inf
  else zero.

End GoMath.

(** ** main.go *)

Module Exporter.

Import GoMath.

(** banktypes.DenomUnit and banktypes.Metadata, with the fields the
    resolver reads. *)
Record DenomUnit : Type := mkDenomUnit {
  unit_Denom : string;
  unit_Exponent : Z                     (* uint32 *)
}.

Record Metadata : Type := mkMetadata {
  DenomUnits : list DenomUnit;
  Display : string
}.

(** What [bankClient.DenomsMetadata] returns: an error, or a response
    with its [Metadatas]. *)
Inductive NodeReply : Type :=
| ReplyErr
| ReplyOk (Metadatas : list Metadata).

(** The calls of [log.Fatal] in the resolver. *)
Inductive FatalMsg : Type :=
| BothProvided        (* "denom-coefficient and denom-exponent are both provided. Must provide only one" *)
| ErrorQueryingDenom  (* "Error querying denom" *)
| NoDenomInfos        (* "No denom infos. Try running the binary with --denom and --denom-coefficient to set them manually." *)
| CouldNotFindDenom.  (* "Could not find the denom info" *)

Inductive Field : Type :=
| FStr (s : string)
| FFloat (x : float64)
| FUint (n : Z).

Inductive Level : Type := Debug | Info.

(** What the resolver does to the outside: the gRPC query and the log
    lines it writes. *)
Inductive Event : Type :=
| QueryDenomsMetadata
| Log (lvl : Level) (fields : list (string * Field)) (msg : string).

(** The package variables the resolver reads and writes, and the events
    so far (latest first). *)
Record State : Type := mkState {
  Denom : string;
  DenomCoefficient : float64;
  DenomExponent : Z;                    (* uint64 *)
  trace : list Event
}.

(** A call either returns or ends the process through [log.Fatal]. *)
Inductive Res (A : Type) : Type :=
| Ret (a : A)
| Exit (m : FatalMsg).
Arguments Ret {A} a.
Arguments Exit {A} m.

Definition M (A : Type) : Type := State -> Res A * State.

Definition ret {A} (a : A) : M A := fun s => (Ret a, s).

Definition bind {A B} (c : M A) (k : A -> M B) : M B :=
  fun s => match c s with
           | (Ret a, s') => k a s'
           | (Exit m, s') => (Exit m, s')
           end.

Notation "x <- c ;; k" := (bind c (fun x => k))
  (at level 61, c at next level, right associativity).
Notation "c ;;; k" := (bind c (fun _ => k))
  (at level 61, right associativity).

Definition get : M State := fun s => (Ret s, s).

Definition emit (e : Event) : M unit :=
  fun s => (Ret tt, mkState (Denom s) (DenomCoefficient s) (DenomExponent s)
                            (e :: trace s)).

Definition fatal {A} (m : FatalMsg) : M A := fun s => (Exit m, s).

Definition setDenomVar (d : string) : M unit :=
  fun s => (Ret tt, mkState d (DenomCoefficient s) (DenomExponent s) (trace s)).

Definition setDenomCoefficient (c : float64) : M unit :=
  fun s => (Ret tt, mkState (Denom s) c (DenomExponent s) (trace s)).

Definition when (b : bool) (c : M unit) : M unit :=
  if b then c else ret tt.

Definition nonempty (s : string) : bool := negb (String.eqb s "").

(** func checkAndHandleDenomInfoProvidedByUser() bool *)
Definition checkAndHandleDenomInfoProvidedByUser : M bool :=
  g <- get ;;
  if nonempty (Denom g) then
    when (neqb (DenomCoefficient g) one && negb (DenomExponent g =? 0))
         (fatal BothProvided) ;;;
    if neqb (DenomCoefficient g) one then
      emit (Log Info [("denom", FStr (Denom g));
                      ("coefficient", FFloat (DenomCoefficient g))]
                "Using provided denom and coefficient.") ;;;
      ret true
    else if negb (DenomExponent g =? 0) then
      let c := Pow10 (int_of_uint64 (DenomExponent g)) in
      setDenomCoefficient c ;;;
      emit (Log Info [("denom", FStr (Denom g));
                      ("exponent", FUint (DenomExponent g));
                      ("calculated coefficient", FFloat c)]
                "Using provided denom and denom exponent and calculating coefficient.") ;;;
      ret true
    else ret false
  else ret false.

(** The [for _, unit := range metadata.DenomUnits] loop of [setDenom];
    [true] when the body returned from [setDenom], [false] when the
    range was exhausted. *)
Fixpoint scanDenomUnits (units : list DenomUnit) : M bool :=
  match units with
  | [] => ret false
  | unit :: rest =>
      emit (Log Debug [("denom", FStr (unit_Denom unit));
                       ("exponent", FUint (unit_Exponent unit))]
                "Denom info") ;;;
      g <- get ;;
      if String.eqb (unit_Denom unit) (Denom g) then
        let c := Pow10 (int_of_uint32 (unit_Exponent unit)) in
        setDenomCoefficient c ;;;
        emit (Log Info [("denom", FStr (Denom g)); ("coefficient", FFloat c)]
                  "Got denom info") ;;;
        ret true
      else scanDenomUnits rest
  end.

(** func setDenom(grpcConn *grpc.ClientConn); [node] is what the node
    answers to the DenomsMetadata query. *)
Definition setDenom (node : NodeReply) : M unit :=
  isUserProvidedAndHandled <- checkAndHandleDenomInfoProvidedByUser ;;
  if isUserProvidedAndHandled then ret tt
  else
    emit QueryDenomsMetadata ;;;
    match node with
    | ReplyErr => fatal ErrorQueryingDenom
    | ReplyOk [] => fatal NoDenomInfos
    | ReplyOk (metadata :: _) =>
        g <- get ;;
        when (String.eqb (Denom g) "") (setDenomVar (Display metadata)) ;;;
        found <- scanDenomUnits (DenomUnits metadata) ;;
        if found then ret tt else fatal CouldNotFindDenom
    end.

(** *** The resolver as the specification sees it *)

(** The specification's error taxonomy over the resolver's fatal exits:
    a failed query is an UpstreamError, the others are ConfigErrors. *)
Inductive ErrorClass : Type := ConfigError | UpstreamError.

Definition error_class (m : FatalMsg) : ErrorClass :=
  match m with
  | ErrorQueryingDenom => UpstreamError
  | BothProvided | NoDenomInfos | CouldNotFindDenom => ConfigError
  end.

(** The package variables at the call of [setDenom]. *)
Definition start (symbol : string) (coefficient : float64) (exponent : Z)
  : State := mkState symbol coefficient exponent [].

Inductive Resolution : Type :=
| Resolved (symbol : string) (coefficient : float64)
| Failed (m : FatalMsg).

(** [resolve]: run [setDenom] and read the resolved pair off the package
    variables. *)
Definition resolve (symbol : string) (coefficient : float64) (exponent : Z)
           (node : NodeReply) : Resolution :=
  match setDenom node (start symbol coefficient exponent) with
  | (Ret _, s) => Resolved (Denom s) (DenomCoefficient s)
  | (Exit m, _) => Failed m
  end.

(** The events of a run, oldest first. *)
Definition events (symbol : string) (coefficient : float64) (exponent : Z)
           (node : NodeReply) : list Event :=
  rev (trace (snd (setDenom node (start symbol coefficient exponent)))).

Definition is_query (e : Event) : bool :=
  match e with QueryDenomsMetadata => true | Log _ _ _ => false end.

(** How many node queries a run issues. *)
Definition queries (symbol : string) (coefficient : float64) (exponent : Z)
           (node : NodeReply) : nat :=
  List.length (filter is_query (events symbol coefficient exponent node)).

End Exporter.

Import GoMath Exporter.

(** ** Inputs the resolver can receive *)

(** The exponents of a node's answer are uint32 values. *)
Definition wf_unit (u : DenomUnit) : bool :=
  (0 <=? unit_Exponent u) && (unit_Exponent u <? 2 ^ 32).

Definition wf_metadata (m : Metadata) : bool := forallb wf_unit (DenomUnits m).

Definition wf_node (node : NodeReply) : bool :=
  match node with
  | ReplyErr => true
  | ReplyOk ms => forallb wf_metadata ms
  end.

(** The overrides leave the scaling to the node: no symbol, or a symbol
    with the coefficient at 1 and the exponent at 0. *)
Definition defers_to_node (symbol : string) (coefficient : float64)
           (exponent : Z) : bool :=
  String.eqb symbol "" || (eqb coefficient one && (exponent =? 0)).

(** A unit of the list carries the name [symbol]. *)
Definition occurs (symbol : string) (units : list DenomUnit) : bool :=
  existsb (fun u => String.eqb (unit_Denom u) symbol) units.

(** The symbol the units of the selected entry are matched against. *)
Definition target (symbol : string) (metadata : Metadata) : string :=
  if String.eqb symbol "" then Display metadata else symbol.

(** The log lines of the node path. *)
Definition denom_info_line (u : DenomUnit) : Event :=
  Log Debug [("denom", FStr (unit_Denom u)); ("exponent", FUint (unit_Exponent u))]
      "Denom info".

Definition got_denom_info_line (symbol : string) (c : float64) : Event :=
  Log Info [("denom", FStr symbol); ("coefficient", FFloat c)] "Got denom info".

(** The outcome of the node path read off the selected entry alone: the
    first unit named like the target gives the coefficient. *)
Definition resolve_from_entry (symbol : string) (metadata : Metadata) : Resolution :=
  match find (fun u => String.eqb (unit_Denom u) (target symbol metadata))
             (DenomUnits metadata) with
  | Some u => Resolved (target symbol metadata)
                       (Pow10 (int_of_uint32 (unit_Exponent u)))
  | None => Failed CouldNotFindDenom
  end.

(** The package variables when the units are scanned. *)
Definition at_scan (symbol : string) (c : float64) (e : Z) (metadata : Metadata)
  : State := mkState (target symbol metadata) c e [QueryDenomsMetadata].

(** The log lines of the scan: one per unit up to the first one named
    [symbol], and the closing line of a match. *)
Fixpoint scan_lines (symbol : string) (units : list DenomUnit) : list Event :=
  match units with
  | [] => []
  | u :: rest =>
      denom_info_line u ::
      if String.eqb (unit_Denom u) symbol
      then [got_denom_info_line symbol (Pow10 (int_of_uint32 (unit_Exponent u)))]
      else scan_lines symbol rest
  end.

(** The events of the node path over a non-empty registry. *)
Definition node_events (symbol : string) (metadata : Metadata) : list Event :=
  QueryDenomsMetadata :: scan_lines (target symbol metadata) (DenomUnits metadata).

(** The log lines of the override step. *)
Definition using_coefficient_line (symbol : string) (c : float64) : Event :=
  Log Info [("denom", FStr symbol); ("coefficient", FFloat c)]
      "Using provided denom and coefficient.".

Definition using_exponent_line (symbol : string) (e : Z) (c : float64) : Event :=
  Log Info [("denom", FStr symbol); ("exponent", FUint e);
            ("calculated coefficient", FFloat c)]
      "Using provided denom and denom exponent and calculating coefficient.".

(** The package variables as [main] leaves them: "api" is the only flag
    bound to [Denom], no flag is bound to the two scaling variables. *)
Definition startup_Denom : string := "http://127.0.0.1:1317".
Definition startup_DenomCoefficient : float64 := zero.
Definition startup_DenomExponent : Z := 0.

(** An entry whose units are [before], then [u], then [after]. *)
Definition listing (before : list DenomUnit) (u : DenomUnit)
           (after : list DenomUnit) (display : string) : Metadata :=
  mkMetadata (before ++ u :: after) display.

(** Registry entries of the examples. *)
Definition umee_entry : Metadata :=
  mkMetadata [mkDenomUnit "uumee" 0; mkDenomUnit "umee" 6] "uumee".

Definition atom_entry : Metadata :=
  mkMetadata [mkDenomUnit "uatom" 0; mkDenomUnit "atom" 6] "atom".

(** An entry that lists the unit "umee" twice, at different scales. *)
Definition twice_entry : Metadata :=
  mkMetadata [mkDenomUnit "uumee" 0; mkDenomUnit "umee" 6; mkDenomUnit "umee" 9]
             "uumee".

Definition umee_registry : list Metadata := [umee_entry].

(** Go's [x <= y] on float64. *)
Definition f64_leb (x y : float64) : bool := SFleb x y.

(** The outcome of [resolve] by cases on the overrides, then on the node's
    answer. *)
Definition resolve_by_cases (symbol : string) (c : float64) (e : Z)
           (node : NodeReply) : Resolution :=
  if defers_to_node symbol c e then
    match node with
    | ReplyErr => Failed ErrorQueryingDenom
    | ReplyOk [] => Failed NoDenomInfos
    | ReplyOk (metadata :: _) => resolve_from_entry symbol metadata
    end
  else if neqb c one && negb (e =? 0) then Failed BothProvided
  else if neqb c one then Resolved symbol c
  else Resolved symbol (Pow10 (int_of_uint64 e)).

(** ** main.go: flags, bech32 prefixes and start-up *)

Module Startup.

(** *** The flag set of the command (pflag) *)

(** A flag as the program sees it: its name, whether its value is a string
    value, [Value.String()], [Changed], and what [Value.Set] makes of a text
    when the value is not a string ([None]: the text is refused). *)
Record Flag : Type := mkFlag {
  flag_Name : string;
  flag_is_string : bool;
  flag_Value : string;
  flag_Changed : bool;
  flag_parse : string -> option string
}.

(** The flags of the command in the order [VisitAll] visits them; pflag
    keeps the names unique. *)
Definition FlagSet : Type := list Flag.

Definition names (fs : FlagSet) : list string := map flag_Name fs.

Definition Lookup (fs : FlagSet) (name : string) : option Flag :=
  find (fun f => String.eqb (flag_Name f) name) fs.

(** [Value.Set(text)]: a string value takes any text as it is. *)
Definition value_Set (f : Flag) (text : string) : option string :=
  if flag_is_string f then Some text else flag_parse f text.

(** [GetString(name)]: the value, and whether the error is nil; the error
    is non-nil, with value "", for a missing flag and for a flag of another
    type. *)
Definition GetString (fs : FlagSet) (name : string) : string * bool :=
  match Lookup fs name with
  | Some f => if flag_is_string f then (flag_Value f, true) else ("", false)
  | None => ("", false)
  end.

(** [Set(name, text)]: [None] for an error (no such flag, or the value
    refuses the text); on success the flag holds the new value and is
    [Changed]. *)
Fixpoint FlagSet_Set (fs : FlagSet) (name text : string) : option FlagSet :=
  match fs with
  | [] => None
  | f :: rest =>
      if String.eqb (flag_Name f) name then
        match value_Set f text with
        | Some v =>
            Some (mkFlag (flag_Name f) (flag_is_string f) v true (flag_parse f) :: rest)
        | None => None
        end
      else
        match FlagSet_Set rest name text with
        | Some rest' => Some (f :: rest')
        | None => None
        end
  end.

(** *** The configuration file (viper) *)

(** What [viper.ReadInConfig] returns: nil, a [ConfigFileNotFoundError],
    or another error. *)
Inductive ReadResult : Type := ReadOk | ReadNotFound | ReadFailed.

(** [setting name] is [Some text] when [viper.IsSet(name)], with [text]
    the value [viper.Get(name)] printed with "%v". *)
Record Viper : Type := mkViper {
  ReadInConfig : ReadResult;
  setting : string -> option string
}.

(** *** The prefix variables *)

Record Prefixes : Type := mkPrefixes {
  Prefix : string;
  AccountPrefix : string;
  AccountPubkeyPrefix : string;
  ValidatorPrefix : string;
  ValidatorPubkeyPrefix : string;
  ConsensusNodePrefix : string;
  ConsensusNodePubkeyPrefix : string
}.

Definition set_AccountPrefix (v : string) (p : Prefixes) : Prefixes :=
  mkPrefixes (Prefix p) v (AccountPubkeyPrefix p) (ValidatorPrefix p)
             (ValidatorPubkeyPrefix p) (ConsensusNodePrefix p)
             (ConsensusNodePubkeyPrefix p).

Definition set_AccountPubkeyPrefix (v : string) (p : Prefixes) : Prefixes :=
  mkPrefixes (Prefix p) (AccountPrefix p) v (ValidatorPrefix p)
             (ValidatorPubkeyPrefix p) (ConsensusNodePrefix p)
             (ConsensusNodePubkeyPrefix p).

Definition set_ValidatorPrefix (v : string) (p : Prefixes) : Prefixes :=
  mkPrefixes (Prefix p) (AccountPrefix p) (AccountPubkeyPrefix p) v
             (ValidatorPubkeyPrefix p) (ConsensusNodePrefix p)
             (ConsensusNodePubkeyPrefix p).

Definition set_ValidatorPubkeyPrefix (v : string) (p : Prefixes) : Prefixes :=
  mkPrefixes (Prefix p) (AccountPrefix p) (AccountPubkeyPrefix p)
             (ValidatorPrefix p) v (ConsensusNodePrefix p)
             (ConsensusNodePubkeyPrefix p).

Definition set_ConsensusNodePrefix (v : string) (p : Prefixes) : Prefixes :=
  mkPrefixes (Prefix p) (AccountPrefix p) (AccountPubkeyPrefix p)
             (ValidatorPrefix p) (ValidatorPubkeyPrefix p) v
             (ConsensusNodePubkeyPrefix p).

Definition set_ConsensusNodePubkeyPrefix (v : string) (p : Prefixes) : Prefixes :=
  mkPrefixes (Prefix p) (AccountPrefix p) (AccountPubkeyPrefix p)
             (ValidatorPrefix p) (ValidatorPubkeyPrefix p)
             (ConsensusNodePrefix p) v.

(** [if flag, err := ...GetString(name); flag != "" && err == nil { flag }
    else { fallback }] *)
Definition flag_or (got : string * bool) (fallback : string) : string :=
  let (flag, err_is_nil) := got in
  if nonempty flag && err_is_nil then flag else fallback.

(** func setBechPrefixes(cmd *cobra.Command) *)
Definition setBechPrefixes (fs : FlagSet) (p : Prefixes) : Prefixes :=
  let p := set_AccountPrefix
             (flag_or (GetString fs "bech-account-prefix") (Prefix p)) p in
  let p := set_AccountPubkeyPrefix
             (flag_or (GetString fs "bech-account-pubkey-prefix")
                      (String.append (Prefix p) "pub")) p in
  let p := set_ValidatorPrefix
             (flag_or (GetString fs "bech-validator-prefix")
                      (String.append (Prefix p) "valoper")) p in
  let p := set_ValidatorPubkeyPrefix
             (flag_or (GetString fs "bech-validator-pubkey-prefix")
                      (String.append (Prefix p) "valoperpub")) p in
  let p := set_ConsensusNodePrefix
             (flag_or (GetString fs "bech-consensus-node-prefix")
                      (String.append (Prefix p) "valcons")) p in
  set_ConsensusNodePubkeyPrefix
    (flag_or (GetString fs "bech-consensus-node-pubkey-prefix")
             (String.append (Prefix p) "valconspub")) p.

(** *** rootCmd.PersistentPreRunE *)

(** The body of [cmd.Flags().VisitAll(func(f *pflag.Flag) {...})] over the
    flags named [visit]: a flag that is not [Changed] and is set in the
    configuration takes the configured value; [None] when [Set] fails and
    [log.Fatal] ends the process. *)
Fixpoint visitAll (visit : list string) (v : Viper) (fs : FlagSet)
  : option FlagSet :=
  match visit with
  | [] => Some fs
  | name :: rest =>
      match Lookup fs name, setting v name with
      | Some f, Some text =>
          if negb (flag_Changed f) then
            match FlagSet_Set fs name text with
            | Some fs' => visitAll rest v fs'
            | None => None
            end
          else visitAll rest v fs
      | _, _ => visitAll rest v fs
      end
  end.

Inductive PreRun : Type :=
| PreRunNil (fs : FlagSet) (p : Prefixes)   (* return nil *)
| PreRunErr (fs : FlagSet) (p : Prefixes)   (* return err, of ReadInConfig *)
| PreRunFatal.                              (* log.Fatal: "Could not set flag" *)

Definition PersistentPreRunE (ConfigPath : string) (v : Viper) (fs : FlagSet)
           (p : Prefixes) : PreRun :=
  if String.eqb ConfigPath "" then PreRunNil fs (setBechPrefixes fs p)
  else
    match ReadInConfig v with
    | ReadFailed => PreRunErr fs p
    | ReadOk | ReadNotFound =>
        match visitAll (names fs) v fs with
        | Some fs' => PreRunNil fs' (setBechPrefixes fs' p)
        | None => PreRunFatal
        end
    end.

(** *** Execute *)

(** What the outside answers during [Execute]: whether [zerolog.ParseLevel]
    and [grpc.Dial] return a nil error, what the node answers to the
    DenomsMetadata query, and whether [http.ListenAndServe] returns (it
    returns with an error only). *)
Record Outside : Type := mkOutside {
  level_parses : bool;
  dial_succeeds : bool;
  node_reply : NodeReply;
  serve_returns : bool
}.

(** The calls [Execute] makes, in order. *)
Inductive StartEvent : Type :=
| Started (p : Prefixes) (denom : string) (coefficient : float64) (exponent : Z)
| SetBech32PrefixForAccount (prefix pubkey : string)
| SetBech32PrefixForValidator (prefix pubkey : string)
| SetBech32PrefixForConsensusNode (prefix pubkey : string)
| Seal
| Dial
| Resolver (e : Event)
| HandleMetrics
| Listening
| ListenAndServe.

(** How [Execute] ends: one of its [log.Fatal] calls, or serving for ever
    with the resolved denomination. *)
Inductive ExecuteEnd : Type :=
| FatalParseLevel                 (* "Could not parse log level" *)
| FatalDial                       (* "Could not connect to gRPC node" *)
| FatalResolver (m : FatalMsg)
| FatalListen                     (* "Could not start application" *)
| Serving (symbol : string) (coefficient : float64).

Definition before_resolution (p : Prefixes) (denom : string) (c : float64) (e : Z)
  : list StartEvent :=
  [Started p denom c e;
   SetBech32PrefixForAccount (AccountPrefix p) (AccountPubkeyPrefix p);
   SetBech32PrefixForValidator (ValidatorPrefix p) (ValidatorPubkeyPrefix p);
   SetBech32PrefixForConsensusNode (ConsensusNodePrefix p)
                                   (ConsensusNodePubkeyPrefix p);
   Seal;
   Dial].

(** func Execute(cmd *cobra.Command, args []string), from the package
    variables [p], [denom], [c] and [e]. *)
Definition Execute (o : Outside) (p : Prefixes) (denom : string) (c : float64)
           (e : Z) : list StartEvent * ExecuteEnd :=
  if negb (level_parses o) then ([], FatalParseLevel)
  else if negb (dial_succeeds o) then (before_resolution p denom c e, FatalDial)
  else
    match setDenom (node_reply o) (start denom c e) with
    | (Exit m, s) =>
        (before_resolution p denom c e ++ map Resolver (rev (trace s)),
         FatalResolver m)
    | (Ret _, s) =>
        (before_resolution p denom c e ++ map Resolver (rev (trace s))
           ++ [HandleMetrics; Listening; ListenAndServe],
         if serve_returns o then FatalListen
         else Serving (Denom s) (DenomCoefficient s))
    end.

(** *** main *)

(** The flags [main] registers, after the command line was parsed: each
    holds the text given on the command line, or its default. *)
Definition flag_of (name default : string) (given : option string) : Flag :=
  match given with
  | Some text => mkFlag name true text true (fun t => Some t)
  | None => mkFlag name true default false (fun t => Some t)
  end.

Definition main_flags (api listen_address log_level : option string) : FlagSet :=
  [flag_of "api" "http://127.0.0.1:1317" api;
   flag_of "listen-address" ":9300" listen_address;
   flag_of "log-level" "info" log_level].

(** [Denom] is the variable of the flag "api". *)
Definition Denom_of (fs : FlagSet) : string := fst (GetString fs "api").

(** How the program ends: [rootCmd.Execute] returned the error of the
    pre-run ("Could not start application"), the pre-run ended in
    [log.Fatal], or [Execute] ran. *)
Inductive ProgramEnd : Type :=
| PreRunFailed
| FlagFatal
| Ran (events : list StartEvent) (final : ExecuteEnd).

(** [rootCmd.Execute()] of [main] once the command line is parsed: the
    pre-run, then [Execute] on the variables it left. [c] and [e] are
    [DenomCoefficient] and [DenomExponent], which no flag of [main] sets. *)
Definition run_root (ConfigPath : string) (v : Viper) (fs : FlagSet)
           (p : Prefixes) (c : float64) (e : Z) (o : Outside) : ProgramEnd :=
  match PersistentPreRunE ConfigPath v fs p with
  | PreRunErr _ _ => PreRunFailed
  | PreRunFatal => FlagFatal
  | PreRunNil fs' p' =>
      let (events, final) := Execute o p' (Denom_of fs') c e in
      Ran events final
  end.

End Startup.

Import Startup.

(** The six flag names [setBechPrefixes] reads. *)
Definition bech_flag_names : list string :=
  ["bech-account-prefix"; "bech-account-pubkey-prefix";
   "bech-validator-prefix"; "bech-validator-pubkey-prefix";
   "bech-consensus-node-prefix"; "bech-consensus-node-pubkey-prefix"].

(** [GetString] gives a value [setBechPrefixes] takes. *)
Definition usable (got : string * bool) : bool := nonempty (fst got) && snd got.

(** No prefix flag gives a usable value. *)
Definition no_bech_flags (fs : FlagSet) : bool :=
  forallb (fun name => negb (usable (GetString fs name))) bech_flag_names.

(** The six prefixes, in the order of the variables. *)
Definition prefix_list (p : Prefixes) : list string :=
  [AccountPrefix p; AccountPubkeyPrefix p; ValidatorPrefix p;
   ValidatorPubkeyPrefix p; ConsensusNodePrefix p; ConsensusNodePubkeyPrefix p].

(** What the pre-run makes of one flag: the command line first, then the
    configuration, then the default. *)
Definition configured (v : Viper) (f : Flag) : option Flag :=
  match setting v (flag_Name f) with
  | Some text =>
      if flag_Changed f then Some f
      else match value_Set f text with
           | Some t => Some (mkFlag (flag_Name f) (flag_is_string f) t true
                                    (flag_parse f))
           | None => None
           end
  | None => Some f
  end.

(** [configured] over the whole set; [None] as soon as one flag refuses. *)
Fixpoint configure_all (v : Viper) (fs : FlagSet) : option FlagSet :=
  match fs with
  | [] => Some []
  | f :: rest =>
      match configured v f, configure_all v rest with
      | Some f', Some rest' => Some (f' :: rest')
      | _, _ => None
      end
  end.

(** No string occurs twice. *)
Fixpoint distinct (l : list string) : bool :=
  match l with
  | [] => true
  | a :: rest => negb (existsb (String.eqb a) rest) && distinct rest
  end.

Definition unique_names (fs : FlagSet) : bool := distinct (names fs).

(** The value the pre-run leaves in a string flag: the command line's, else
    the configuration's, else the default. *)
Definition settled_value (v : Viper) (f : Flag) : string :=
  if flag_Changed f then flag_Value f
  else match setting v (flag_Name f) with
       | Some text => text
       | None => flag_Value f
       end.

(** A configuration file and flags for the examples. *)
Definition example_config : Viper :=
  mkViper ReadOk
          (fun name =>
             if String.eqb name "api" then Some "uumee"
             else if String.eqb name "log-level" then Some "debug"
             else if String.eqb name "bech-validator-prefix" then Some "umeevaloper"
             else None).

(** [example_flags] once the pre-run has applied [example_config]. *)
Definition example_settled : FlagSet :=
  [flag_of "api" "http://127.0.0.1:1317" (Some "umee");
   flag_of "bech-validator-prefix" "" (Some "umeevaloper");
   flag_of "listen-address" ":9300" None;
   flag_of "log-level" "info" (Some "debug")].

(** A flag set with a flag that is not a string and accepts "true" and
    "false" only. *)
Definition bool_flag (name : string) : Flag :=
  mkFlag name false "false" false
         (fun t => if String.eqb t "true" || String.eqb t "false" then Some t else None).

Definition example_flags : FlagSet :=
  [flag_of "api" "http://127.0.0.1:1317" (Some "umee");
   flag_of "bech-validator-prefix" "" None;
   flag_of "listen-address" ":9300" None;
   flag_of "log-level" "info" None].

Definition example_prefixes : Prefixes :=
  mkPrefixes "umee" "" "" "" "" "" "".

(** Unfolds the override step down to its tests. *)
Ltac run_check :=
  unfold checkAndHandleDenomInfoProvidedByUser, bind, get, when, fatal, ret,
    emit, setDenomCoefficient, nonempty, neqb, eqb in *.

(** ** Scenarios of the specification *)

Example scenario_A :
  resolve "" one 0 (ReplyOk umee_registry) = Resolved "uumee" one.
Proof. vm_compute. reflexivity. Qed.

Example scenario_B :
  resolve "umee" one 6 ReplyErr = Resolved "umee" (of_pos 1000000)
  /\ queries "umee" one 6 ReplyErr = 0%nat.
Proof. vm_compute. split; reflexivity. Qed.

Example scenario_C :
  resolve "umee" (of_pos 1000000) 6 (ReplyOk umee_registry) = Failed BothProvided.
Proof. vm_compute. reflexivity. Qed.

Example Pow10_minus_one :
  Pow10 (int_of_uint64 (2 ^ 64 - 1)) = of_ratio 1 10.
Proof. vm_compute. reflexivity. Qed.

(** ** The float64 model *)

Example one_bits : one = S754_finite false 4503599627370496 (-52).
Proof. reflexivity. Qed.

(** [x == 1] holds of the float 1 alone. *)
Lemma eqb_one (x : float64) : eqb x one = true -> x = one.
Proof.
  rewrite one_bits. unfold eqb, SFeqb, SFcompare.
  destruct x as [s | s | | s m e]; try discriminate.
  - destruct s; discriminate.
  - destruct s; [discriminate |].
    destruct (Z.compare_spec e (-52)) as [-> | _ | _]; try discriminate.
    destruct (Pos.compare_cont Eq m 4503599627370496) eqn:Hm; try discriminate.
    apply Pos.compare_eq in Hm. subst m. reflexivity.
Qed.

(** The entries of the three tables are canonical and are the literals
    [1e<k>] and [1e-<k>] rounded to the nearest float64. *)
Example tables_correctly_rounded :
  forallb (fun k => valid (index pow10tab k)
                    && within_half_ulp (index pow10tab k) (Z.to_pos (10 ^ k)) 1)
          (upto 32) = true
  /\ forallb (fun i => valid (index pow10postab32 i)
                       && within_half_ulp (index pow10postab32 i)
                                          (Z.to_pos (10 ^ (i * 32))) 1)
             (upto 10) = true
  /\ forallb (fun i => valid (index pow10negtab32 i)
                       && within_half_ulp (index pow10negtab32 i)
                                          1 (Z.to_pos (10 ^ (i * 32))))
             (upto 11) = true.
Proof. vm_compute. repeat split. Qed.

(** Every value of [Pow10] between its two cut-offs is canonical. *)
Example Pow10_values_valid :
  forallb (fun k => valid (Pow10 (k - 323))) (upto 632) = true.
Proof. vm_compute. reflexivity. Qed.

(** ** Facts about math.Pow10 *)

Arguments Pow10 : simpl never.

Lemma upto_In (n : nat) (z : Z) : 0 <= z < Z.of_nat n -> In z (upto n).
Proof.
  intros Hz. unfold upto. apply in_map_iff. exists (Z.to_nat z). split.
  - lia.
  - apply in_seq. lia.
Qed.

Lemma Pow10_above (n : Z) : 308 < n -> Pow10 n = pos_inf.
Proof.
  intros Hn. unfold Pow10.
  replace (n <=? 308) with false by (symmetry; apply Z.leb_gt; lia).
  replace (n <=? 0) with false by (symmetry; apply Z.leb_gt; lia).
  rewrite !andb_false_r.
  replace (0 <? n) with true by (symmetry; apply Z.ltb_lt; lia).
  reflexivity.
Qed.

Lemma Pow10_below (n : Z) : n < -323 -> Pow10 n = zero.
Proof.
  intros Hn. unfold Pow10.
  replace (0 <=? n) with false by (symmetry; apply Z.leb_gt; lia).
  replace (-323 <=? n) with false by (symmetry; apply Z.leb_gt; lia).
  replace (0 <? n) with false by (symmetry; apply Z.ltb_ge; lia).
  reflexivity.
Qed.

(** A property checked on every exponent of a finite range holds on it. *)
Lemma range_check (P : Z -> bool) (n : nat) :
  forallb P (upto n) = true -> forall z, 0 <= z < Z.of_nat n -> P z = true.
Proof.
  intros Hall z Hz. rewrite forallb_forall in Hall. apply Hall, upto_In, Hz.
Qed.

Lemma Pow10_table_positive (n : Z) : 0 <= n <= 308 -> ltb zero (Pow10 n) = true.
Proof.
  intros Hn.
  apply (range_check (fun z => ltb zero (Pow10 z)) 309); [vm_compute; reflexivity | lia].
Qed.

Lemma Pow10_positive (n : Z) : 0 <= n -> ltb zero (Pow10 n) = true.
Proof.
  intros Hn. destruct (Z_le_gt_dec n 308) as [Hle | Hgt].
  - apply Pow10_table_positive. lia.
  - rewrite Pow10_above by lia. reflexivity.
Qed.

Lemma Pow10_exact_upto_22 (n : Z) : 0 <= n <= 22 -> denotes (Pow10 n) (10 ^ n) = true.
Proof.
  intros Hn.
  apply (range_check (fun z => denotes (Pow10 z) (10 ^ z)) 23); [vm_compute; reflexivity | lia].
Qed.

Lemma Pow10_not_one (n : Z) : n <> 0 -> eqb (Pow10 n) one = false.
Proof.
  intros Hn. destruct (Z_lt_le_dec n (-323)) as [Hlow | Hlow].
  { rewrite Pow10_below by lia. reflexivity. }
  destruct (Z_le_gt_dec n 308) as [Hhigh | Hhigh].
  2:{ rewrite Pow10_above by lia. reflexivity. }
  destruct (Z_lt_le_dec n 0) as [Hneg | Hpos].
  - assert (Hc : negb (eqb (Pow10 (- (- n - 1) - 1)) one) = true).
    { apply (range_check (fun z => negb (eqb (Pow10 (- z - 1)) one)) 323);
        [vm_compute; reflexivity | lia]. }
    replace (- (- n - 1) - 1) with n in Hc by lia.
    apply negb_true_iff, Hc.
  - assert (Hc : negb (eqb (Pow10 (n - 1 + 1)) one) = true).
    { apply (range_check (fun z => negb (eqb (Pow10 (z + 1)) one)) 308);
        [vm_compute; reflexivity | lia]. }
    replace (n - 1 + 1) with n in Hc by lia.
    apply negb_true_iff, Hc.
Qed.

(** ** The override step *)

Lemma empty_eqb (symbol : string) : symbol <> "" -> String.eqb symbol "" = false.
Proof. intros H. apply String.eqb_neq, H. Qed.

Lemma check_no_symbol (s : State) :
  Denom s = "" -> checkAndHandleDenomInfoProvidedByUser s = (Ret false, s).
Proof. intros Hd. run_check. rewrite Hd. reflexivity. Qed.

Lemma check_defaults (s : State) :
  eqb (DenomCoefficient s) one = true -> DenomExponent s = 0 ->
  checkAndHandleDenomInfoProvidedByUser s = (Ret false, s).
Proof.
  intros Hc He. run_check. rewrite Hc, He.
  destruct (String.eqb (Denom s) ""); reflexivity.
Qed.

Lemma check_both (s : State) :
  Denom s <> "" -> neqb (DenomCoefficient s) one = true -> DenomExponent s <> 0 ->
  checkAndHandleDenomInfoProvidedByUser s = (Exit BothProvided, s).
Proof.
  intros Hd Hc He. run_check. rewrite (empty_eqb _ Hd), Hc.
  apply Z.eqb_neq in He. rewrite He. reflexivity.
Qed.

Lemma check_coefficient (s : State) :
  Denom s <> "" -> neqb (DenomCoefficient s) one = true -> DenomExponent s = 0 ->
  checkAndHandleDenomInfoProvidedByUser s =
    (Ret true,
     mkState (Denom s) (DenomCoefficient s) (DenomExponent s)
       (Log Info [("denom", FStr (Denom s));
                  ("coefficient", FFloat (DenomCoefficient s))]
            "Using provided denom and coefficient." :: trace s)).
Proof.
  intros Hd Hc He. run_check. rewrite (empty_eqb _ Hd), Hc.
  replace (DenomExponent s =? 0) with true by (symmetry; apply Z.eqb_eq, He).
  reflexivity.
Qed.

Lemma check_exponent (s : State) :
  Denom s <> "" -> eqb (DenomCoefficient s) one = true -> DenomExponent s <> 0 ->
  checkAndHandleDenomInfoProvidedByUser s =
    (Ret true,
     mkState (Denom s) (Pow10 (int_of_uint64 (DenomExponent s))) (DenomExponent s)
       (Log Info [("denom", FStr (Denom s));
                  ("exponent", FUint (DenomExponent s));
                  ("calculated coefficient",
                   FFloat (Pow10 (int_of_uint64 (DenomExponent s))))]
            "Using provided denom and denom exponent and calculating coefficient."
          :: trace s)).
Proof.
  intros Hd Hc He. run_check. rewrite (empty_eqb _ Hd), Hc.
  apply Z.eqb_neq in He. rewrite He. reflexivity.
Qed.

Lemma check_defers (symbol : string) (c : float64) (e : Z) :
  defers_to_node symbol c e = true ->
  checkAndHandleDenomInfoProvidedByUser (start symbol c e)
  = (Ret false, start symbol c e).
Proof.
  unfold defers_to_node. intros Hd.
  apply orb_true_iff in Hd. destruct Hd as [Hs | Hd].
  - apply check_no_symbol, String.eqb_eq, Hs.
  - apply andb_true_iff in Hd. destruct Hd as [Hc He].
    apply check_defaults; [exact Hc | apply Z.eqb_eq, He].
Qed.

Lemma nonempty_neq (symbol : string) : nonempty symbol = true -> symbol <> "".
Proof. unfold nonempty. intros H. apply String.eqb_neq, negb_true_iff, H. Qed.

Lemma occurs_false (symbol : string) (units : list DenomUnit) :
  occurs symbol units = false ->
  forall v, In v units -> unit_Denom v <> symbol.
Proof.
  unfold occurs. intros Hocc v Hv Heq.
  assert (Hex : existsb (fun u => String.eqb (unit_Denom u) symbol) units = true).
  { apply existsb_exists. exists v. split; [exact Hv | apply String.eqb_eq, Heq]. }
  rewrite Hex in Hocc. discriminate.
Qed.

(** ** The scan of the selected entry's units *)

Lemma scan_found (before after : list DenomUnit) (u : DenomUnit) (s : State) :
  (forall v, In v before -> unit_Denom v <> Denom s) ->
  unit_Denom u = Denom s ->
  scanDenomUnits (before ++ u :: after) s =
    (Ret true,
     mkState (Denom s) (Pow10 (int_of_uint32 (unit_Exponent u))) (DenomExponent s)
       (got_denom_info_line (Denom s) (Pow10 (int_of_uint32 (unit_Exponent u)))
          :: denom_info_line u :: rev (map denom_info_line before) ++ trace s)).
Proof.
  revert s. induction before as [| v before IH]; intros s Hbefore Hu.
  - destruct s as [d c e tr]. simpl in Hu. subst d.
    simpl. unfold bind, emit, get, setDenomCoefficient, ret. simpl.
    rewrite String.eqb_refl. reflexivity.
  - simpl. unfold bind at 1 2. unfold emit, get. simpl.
    assert (Hv : String.eqb (unit_Denom v) (Denom s) = false)
      by (apply String.eqb_neq, Hbefore; left; reflexivity).
    rewrite Hv, IH; simpl.
    + rewrite <- app_assoc. reflexivity.
    + intros w Hw. apply Hbefore. right. exact Hw.
    + exact Hu.
Qed.

Lemma scan_missing (units : list DenomUnit) (s : State) :
  (forall v, In v units -> unit_Denom v <> Denom s) ->
  scanDenomUnits units s =
    (Ret false,
     mkState (Denom s) (DenomCoefficient s) (DenomExponent s)
       (rev (map denom_info_line units) ++ trace s)).
Proof.
  revert s. induction units as [| v units IH]; intros s Hall.
  - destruct s; reflexivity.
  - simpl. unfold bind at 1 2. unfold emit, get. simpl.
    assert (Hv : String.eqb (unit_Denom v) (Denom s) = false)
      by (apply String.eqb_neq, Hall; left; reflexivity).
    rewrite Hv, IH; simpl.
    + rewrite <- app_assoc. reflexivity.
    + intros w Hw. apply Hall. right. exact Hw.
Qed.

(** The first element a predicate accepts splits the list. *)
Lemma find_first {A} (f : A -> bool) (l : list A) (x : A) :
  find f l = Some x ->
  exists before after,
    l = before ++ x :: after /\ f x = true /\ forall y, In y before -> f y = false.
Proof.
  induction l as [| a l IH]; simpl; [discriminate |].
  destruct (f a) eqn:Ha.
  - intros [= <-]. exists [], l. repeat split; [exact Ha | intros y []].
  - intros Hf. destruct (IH Hf) as (before & after & -> & Hx & Hb).
    exists (a :: before), after. repeat split; [exact Hx |].
    intros y [<- | Hy]; [exact Ha | apply Hb, Hy].
Qed.

(** ** The node path of [setDenom] *)

Lemma setDenom_node_path (symbol : string) (c : float64) (e : Z)
      (metadata : Metadata) (others : list Metadata) :
  defers_to_node symbol c e = true ->
  setDenom (ReplyOk (metadata :: others)) (start symbol c e) =
    match scanDenomUnits (DenomUnits metadata) (at_scan symbol c e metadata) with
    | (Ret true, s) => (Ret tt, s)
    | (Ret false, s) => (Exit CouldNotFindDenom, s)
    | (Exit m, s) => (Exit m, s)
    end.
Proof.
  intros Hd. unfold setDenom, bind at 1. rewrite (check_defers _ _ _ Hd).
  unfold bind at 1 2 3, emit, get, when, setDenomVar, at_scan, target, start.
  simpl. destruct (String.eqb symbol ""); simpl; unfold bind, ret, fatal;
    destruct (scanDenomUnits _ _) as [[[] | m] s]; reflexivity.
Qed.

Lemma setDenom_first_match (symbol : string) (c : float64) (e : Z)
      (before after : list DenomUnit) (u : DenomUnit) (display : string)
      (others : list Metadata) :
  let metadata := mkMetadata (before ++ u :: after) display in
  let coefficient := Pow10 (int_of_uint32 (unit_Exponent u)) in
  defers_to_node symbol c e = true ->
  (forall v, In v before -> unit_Denom v <> target symbol metadata) ->
  unit_Denom u = target symbol metadata ->
  setDenom (ReplyOk (metadata :: others)) (start symbol c e) =
    (Ret tt,
     mkState (target symbol metadata) coefficient e
       (rev (QueryDenomsMetadata
               :: map denom_info_line (before ++ [u])
               ++ [got_denom_info_line (target symbol metadata) coefficient]))).
Proof.
  intros metadata coefficient Hd Hb Hu.
  rewrite setDenom_node_path by exact Hd.
  change (DenomUnits metadata) with (before ++ u :: after).
  rewrite scan_found by assumption.
  simpl. f_equal. f_equal.
  rewrite rev_app_distr, map_app, rev_app_distr. reflexivity.
Qed.

Lemma setDenom_no_match (symbol : string) (c : float64) (e : Z)
      (metadata : Metadata) (others : list Metadata) :
  defers_to_node symbol c e = true ->
  (forall v, In v (DenomUnits metadata) -> unit_Denom v <> target symbol metadata) ->
  setDenom (ReplyOk (metadata :: others)) (start symbol c e) =
    (Exit CouldNotFindDenom,
     mkState (target symbol metadata) c e
       (rev (QueryDenomsMetadata :: map denom_info_line (DenomUnits metadata)))).
Proof.
  intros Hd Hall.
  rewrite setDenom_node_path by exact Hd.
  rewrite scan_missing by assumption.
  simpl. reflexivity.
Qed.

Lemma no_query_in_denom_info (units : list DenomUnit) :
  filter is_query (map denom_info_line units) = [].
Proof. induction units as [| u units IH]; simpl; [reflexivity | exact IH]. Qed.

(** ** Runs of [setDenom] from the package variables at startup *)

Lemma run_coefficient (symbol : string) (c : float64) (node : NodeReply) :
  symbol <> "" -> neqb c one = true ->
  setDenom node (start symbol c 0) =
    (Ret tt, mkState symbol c 0 [using_coefficient_line symbol c]).
Proof.
  intros Hs Hc. unfold setDenom, bind.
  rewrite check_coefficient by (simpl; auto). reflexivity.
Qed.

Lemma run_exponent (symbol : string) (c : float64) (e : Z) (node : NodeReply) :
  symbol <> "" -> eqb c one = true -> e <> 0 ->
  setDenom node (start symbol c e) =
    (Ret tt, mkState symbol (Pow10 (int_of_uint64 e)) e
               [using_exponent_line symbol e (Pow10 (int_of_uint64 e))]).
Proof.
  intros Hs Hc He. unfold setDenom, bind.
  rewrite check_exponent by (simpl; auto). reflexivity.
Qed.

Lemma run_both (symbol : string) (c : float64) (e : Z) (node : NodeReply) :
  symbol <> "" -> neqb c one = true -> e <> 0 ->
  setDenom node (start symbol c e) = (Exit BothProvided, start symbol c e).
Proof.
  intros Hs Hc He. unfold setDenom, bind.
  rewrite check_both by (simpl; auto). reflexivity.
Qed.

Lemma run_query_error (symbol : string) (c : float64) (e : Z) :
  defers_to_node symbol c e = true ->
  setDenom ReplyErr (start symbol c e) =
    (Exit ErrorQueryingDenom, mkState symbol c e [QueryDenomsMetadata]).
Proof.
  intros Hd. unfold setDenom, bind at 1. rewrite (check_defers _ _ _ Hd).
  reflexivity.
Qed.

Lemma run_empty_registry (symbol : string) (c : float64) (e : Z) :
  defers_to_node symbol c e = true ->
  setDenom (ReplyOk []) (start symbol c e) =
    (Exit NoDenomInfos, mkState symbol c e [QueryDenomsMetadata]).
Proof.
  intros Hd. unfold setDenom, bind at 1. rewrite (check_defers _ _ _ Hd).
  reflexivity.
Qed.

(** The overrides are one of: deferring to the node, a coefficient alone,
    an exponent alone, both. *)
Lemma override_cases (symbol : string) (c : float64) (e : Z) :
  defers_to_node symbol c e = true
  \/ (symbol <> "" /\ neqb c one = true /\ e = 0)
  \/ (symbol <> "" /\ eqb c one = true /\ e <> 0)
  \/ (symbol <> "" /\ neqb c one = true /\ e <> 0).
Proof.
  unfold defers_to_node, neqb, eqb.
  destruct (String.eqb_spec symbol "") as [Hs | Hs]; [left; reflexivity |].
  destruct (SFeqb c one); destruct (Z.eqb_spec e 0) as [He | He]; simpl;
    intuition congruence.
Qed.

(** On the node path the outcome is read off the first entry. *)
Lemma resolve_node_path (symbol : string) (c : float64) (e : Z)
      (metadata : Metadata) (others : list Metadata) :
  defers_to_node symbol c e = true ->
  resolve symbol c e (ReplyOk (metadata :: others)) = resolve_from_entry symbol metadata.
Proof.
  intros Hd. unfold resolve, resolve_from_entry.
  destruct (find _ (DenomUnits metadata)) as [u |] eqn:Hfind.
  - destruct (find_first _ _ _ Hfind) as (before & after & Hunits & Hu & Hb).
    destruct metadata as [units display]. simpl in Hunits. subst units.
    rewrite setDenom_first_match.
    + reflexivity.
    + exact Hd.
    + intros v Hv. apply String.eqb_neq, Hb, Hv.
    + apply String.eqb_eq, Hu.
  - rewrite setDenom_no_match.
    + reflexivity.
    + exact Hd.
    + intros v Hv. apply String.eqb_neq. exact (find_none _ _ Hfind v Hv).
Qed.

(** The events of the scan, whatever its outcome. *)
Lemma scan_trace (units : list DenomUnit) (s : State) :
  trace (snd (scanDenomUnits units s)) = rev (scan_lines (Denom s) units) ++ trace s.
Proof.
  revert s. induction units as [| u units IH]; intros s; [reflexivity |].
  simpl. unfold bind at 1 2. unfold emit, get. simpl.
  destruct (String.eqb (unit_Denom u) (Denom s)) eqn:Hu.
  - simpl. reflexivity.
  - rewrite IH. simpl. rewrite <- app_assoc. reflexivity.
Qed.

Lemma events_node_path (symbol : string) (c : float64) (e : Z)
      (metadata : Metadata) (others : list Metadata) :
  defers_to_node symbol c e = true ->
  events symbol c e (ReplyOk (metadata :: others)) = node_events symbol metadata.
Proof.
  intros Hd. unfold events, node_events.
  rewrite setDenom_node_path by exact Hd.
  pose proof (scan_trace (DenomUnits metadata) (at_scan symbol c e metadata)) as Ht.
  destruct (scanDenomUnits _ _) as [[[] | m] s]; simpl in *;
    rewrite Ht, rev_app_distr, rev_involutive; reflexivity.
Qed.

Lemma no_query_in_scan (symbol : string) (units : list DenomUnit) :
  filter is_query (scan_lines symbol units) = [].
Proof.
  induction units as [| u units IH]; simpl; [reflexivity |].
  destruct (String.eqb (unit_Denom u) symbol); [reflexivity | exact IH].
Qed.

(** Deferring to the node costs exactly one query, whatever it answers. *)
Lemma queries_node_path (symbol : string) (c : float64) (e : Z) (node : NodeReply) :
  defers_to_node symbol c e = true -> queries symbol c e node = 1%nat.
Proof.
  intros Hd. unfold queries. destruct node as [| [| metadata others]].
  - unfold events. rewrite run_query_error by exact Hd. reflexivity.
  - unfold events. rewrite run_empty_registry by exact Hd. reflexivity.
  - rewrite events_node_path by exact Hd. unfold node_events. simpl.
    rewrite no_query_in_scan. reflexivity.
Qed.

(** ** The properties of the resolver *)

(** C1: for every non-empty symbol and every explicitly supplied
    coefficient (one that differs from the default 1), with the exponent
    left at its default 0, [resolve] returns that symbol and that
    coefficient unchanged and issues no denomination-metadata query. *)
Theorem coefficient_override_unchanged (symbol : string) (c : float64)
        (node : NodeReply) :
  nonempty symbol = true -> neqb c one = true ->
  resolve symbol c 0 node = Resolved symbol c
  /\ queries symbol c 0 node = 0%nat.
Proof.
  intros Hs Hc. apply nonempty_neq in Hs.
  unfold queries, events, resolve.
  rewrite run_coefficient by assumption. split; reflexivity.
Qed.

Lemma coefficient_override_unchanged_witness :
  resolve "umee" (of_pos 1000000) 0 (ReplyOk []) = Resolved "umee" (of_pos 1000000)
  /\ queries "umee" (of_pos 1000000) 0 (ReplyOk []) = 0%nat.
Proof.
  apply (coefficient_override_unchanged "umee" (of_pos 1000000) (ReplyOk []));
    reflexivity.
Defined.

(** C2, as stated, fails: a coefficient override of 0 is returned as the
    resolved coefficient, and 0 is not greater than zero. *)
Lemma zero_coefficient_resolved :
  resolve "umee" zero 0 (ReplyOk []) = Resolved "umee" zero
  /\ ltb zero zero = false.
Proof. split; reflexivity. Qed.

(** C2, amended: a successfully resolved coefficient is strictly positive
    provided the coefficient override, where one is given, is itself
    positive and an exponent override is below 2^63; the resolver returns a
    supplied coefficient without validating it. *)
Theorem resolved_coefficient_positive (symbol : string) (c : float64) (e : Z)
        (node : NodeReply) (symbol' : string) (c' : float64) :
  uint64_range e -> wf_node node = true ->
  (nonempty symbol = true -> neqb c one = true -> ltb zero c = true) ->
  (nonempty symbol = true -> e < 2 ^ 63) ->
  resolve symbol c e node = Resolved symbol' c' ->
  ltb zero c' = true.
Proof.
  intros He Hnode Hc Hsmall.
  destruct (override_cases symbol c e)
    as [Hd | [(Hs & Hne & ->) | [(Hs & Heq & Hnz) | (Hs & Hne & Hnz)]]].
  - destruct node as [| [| metadata others]]; unfold resolve.
    + rewrite run_query_error by exact Hd. discriminate.
    + rewrite run_empty_registry by exact Hd. discriminate.
    + fold (resolve symbol c e (ReplyOk (metadata :: others))).
      rewrite resolve_node_path by exact Hd. unfold resolve_from_entry.
      destruct (find _ (DenomUnits metadata)) as [u |] eqn:Hfind; [| discriminate].
      intros [= _ <-]. apply Pow10_positive.
      apply find_some in Hfind. destruct Hfind as [Hin _].
      simpl in Hnode. apply andb_true_iff in Hnode. destruct Hnode as [Hm _].
      unfold wf_metadata in Hm. rewrite forallb_forall in Hm.
      specialize (Hm u Hin). unfold wf_unit in Hm.
      apply andb_true_iff in Hm. destruct Hm as [Hlo _].
      apply Z.leb_le in Hlo. unfold int_of_uint32. exact Hlo.
  - unfold resolve. rewrite run_coefficient by assumption.
    intros [= _ <-]. apply Hc; [| exact Hne].
    unfold nonempty. apply negb_true_iff, String.eqb_neq, Hs.
  - unfold resolve. rewrite run_exponent by assumption.
    intros [= _ <-]. apply Pow10_positive.
    assert (Hlt : e < 2 ^ 63)
      by (apply Hsmall; unfold nonempty; apply negb_true_iff, String.eqb_neq, Hs).
    unfold int_of_uint64. apply Z.ltb_lt in Hlt. rewrite Hlt.
    unfold uint64_range in He. lia.
  - unfold resolve. rewrite run_both by assumption. discriminate.
Qed.

Lemma resolved_coefficient_positive_witness :
  resolve "umee" one 6 (ReplyOk umee_registry) = Resolved "umee" (of_pos 1000000)
  /\ ltb zero (of_pos 1000000) = true.
Proof.
  split; [vm_compute; reflexivity |].
  apply (resolved_coefficient_positive "umee" one 6 (ReplyOk umee_registry)
           "umee" (of_pos 1000000)).
  - unfold uint64_range. lia.
  - reflexivity.
  - intros _ H. vm_compute in H. discriminate.
  - intros _. lia.
  - vm_compute. reflexivity.
Defined.

(** C3: for every non-empty symbol supplied together with a non-default
    coefficient and a non-default exponent, [resolve] fails with a
    ConfigError (both scalings provided) before any node query. *)
Theorem both_overrides_rejected (symbol : string) (c : float64) (e : Z)
        (node : NodeReply) :
  nonempty symbol = true -> neqb c one = true -> e <> 0 ->
  resolve symbol c e node = Failed BothProvided
  /\ error_class BothProvided = ConfigError
  /\ events symbol c e node = [].
Proof.
  intros Hs Hc He. apply nonempty_neq in Hs.
  unfold events, resolve. rewrite run_both by assumption.
  repeat split; reflexivity.
Qed.

Lemma both_overrides_rejected_witness :
  resolve "umee" (of_pos 1000000) 6 (ReplyOk umee_registry) = Failed BothProvided
  /\ error_class BothProvided = ConfigError
  /\ events "umee" (of_pos 1000000) 6 (ReplyOk umee_registry) = [].
Proof.
  apply (both_overrides_rejected "umee" (of_pos 1000000) 6 (ReplyOk umee_registry));
    [reflexivity | reflexivity | lia].
Defined.

(** C4, as stated, fails: the coefficient is a float64, so it is not
    10^exponent exactly once that power has no binary64 representation
    (exponent 23 gives 99999999999999991611392), and it is +Inf from
    exponent 309 on. *)
Lemma exponent_override_inexact :
  resolve "umee" one 23 (ReplyOk []) = Resolved "umee" (S754_finite false 5960464477539062 24)
  /\ 5960464477539062 * 2 ^ 24 = 99999999999999991611392
  /\ denotes (S754_finite false 5960464477539062 24) (10 ^ 23) = false
  /\ resolve "umee" one 309 (ReplyOk []) = Resolved "umee" pos_inf.
Proof. vm_compute. repeat split; reflexivity. Qed.

(** C4, amended: for every non-empty symbol and every explicitly supplied
    exponent (non-zero and below 2^63, coefficient at its default 1),
    [resolve] returns the float64 [math.Pow10(exponent)] and issues no node
    query; that coefficient is 10^exponent exactly for every exponent up
    to 22. *)
Theorem exponent_override_power_of_ten (symbol : string) (c : float64) (e : Z)
        (node : NodeReply) :
  nonempty symbol = true -> eqb c one = true -> 0 < e < 2 ^ 63 ->
  resolve symbol c e node = Resolved symbol (Pow10 e)
  /\ queries symbol c e node = 0%nat
  /\ (e <= 22 -> denotes (Pow10 e) (10 ^ e) = true).
Proof.
  intros Hs Hc He. apply nonempty_neq in Hs.
  unfold queries, events, resolve.
  rewrite run_exponent by (assumption || lia).
  unfold int_of_uint64.
  replace (e <? 2 ^ 63) with true by (symmetry; apply Z.ltb_lt; lia).
  split; [reflexivity |]. split; [reflexivity |].
  intros Hle. apply Pow10_exact_upto_22. lia.
Qed.

Lemma exponent_override_power_of_ten_witness :
  resolve "umee" one 6 ReplyErr = Resolved "umee" (Pow10 6)
  /\ queries "umee" one 6 ReplyErr = 0%nat
  /\ (6 <= 22 -> denotes (Pow10 6) (10 ^ 6) = true).
Proof.
  apply (exponent_override_power_of_ten "umee" one 6 ReplyErr);
    [reflexivity | reflexivity | lia].
Defined.

(** C5: on the node path over a non-empty registry, whatever its length,
    [resolve] works from the entry at index 0 alone: outcome and events are
    those read off that entry, the other entries change nothing, and with no
    operator symbol the resolved symbol is that entry's display name. *)
Theorem first_entry_selected (symbol : string) (c : float64) (e : Z)
        (metadata : Metadata) (others : list Metadata) :
  defers_to_node symbol c e = true ->
  resolve symbol c e (ReplyOk (metadata :: others)) = resolve_from_entry symbol metadata
  /\ events symbol c e (ReplyOk (metadata :: others)) = node_events symbol metadata
  /\ resolve symbol c e (ReplyOk (metadata :: others))
     = resolve symbol c e (ReplyOk [metadata])
  /\ (symbol = "" ->
      forall symbol' c',
        resolve symbol c e (ReplyOk (metadata :: others)) = Resolved symbol' c' ->
        symbol' = Display metadata).
Proof.
  intros Hd. rewrite !resolve_node_path by exact Hd.
  rewrite events_node_path by exact Hd.
  split; [reflexivity |]. split; [reflexivity |]. split; [reflexivity |].
  intros -> symbol' c'.
  unfold resolve_from_entry, target. simpl.
  destruct (find _ _); [intros [= <- _]; reflexivity | discriminate].
Qed.

Lemma first_entry_selected_witness :
  resolve "" one 0 (ReplyOk (umee_entry :: [atom_entry]))
  = resolve_from_entry "" umee_entry
  /\ events "" one 0 (ReplyOk (umee_entry :: [atom_entry])) = node_events "" umee_entry
  /\ resolve "" one 0 (ReplyOk (umee_entry :: [atom_entry]))
     = resolve "" one 0 (ReplyOk [umee_entry])
  /\ ("" = "" ->
      forall symbol' c',
        resolve "" one 0 (ReplyOk (umee_entry :: [atom_entry])) = Resolved symbol' c' ->
        symbol' = Display umee_entry).
Proof.
  apply (first_entry_selected "" one 0 umee_entry [atom_entry]). reflexivity.
Defined.

(** C6: for every non-empty operator symbol that no unit of the selected
    entry carries, [resolve] on the node path fails with a ConfigError
    (denom info not found); the metadata query is the only query, followed
    by one log line per unit. *)
Theorem unknown_symbol_rejected (symbol : string) (c : float64) (e : Z)
        (metadata : Metadata) (others : list Metadata) :
  nonempty symbol = true -> defers_to_node symbol c e = true ->
  occurs symbol (DenomUnits metadata) = false ->
  resolve symbol c e (ReplyOk (metadata :: others)) = Failed CouldNotFindDenom
  /\ error_class CouldNotFindDenom = ConfigError
  /\ events symbol c e (ReplyOk (metadata :: others))
     = QueryDenomsMetadata :: map denom_info_line (DenomUnits metadata)
  /\ queries symbol c e (ReplyOk (metadata :: others)) = 1%nat.
Proof.
  intros Hs Hd Hocc. apply nonempty_neq in Hs.
  assert (Ht : target symbol metadata = symbol)
    by (unfold target; rewrite (empty_eqb _ Hs); reflexivity).
  assert (Hrun := setDenom_no_match symbol c e metadata others Hd).
  rewrite Ht in Hrun. specialize (Hrun (occurs_false _ _ Hocc)).
  split; [unfold resolve; rewrite Hrun; reflexivity |].
  split; [reflexivity |].
  split; [unfold events; rewrite Hrun; cbn [snd trace]; apply rev_involutive |].
  apply queries_node_path, Hd.
Qed.

Lemma unknown_symbol_rejected_witness :
  resolve "atom" one 0 (ReplyOk umee_registry) = Failed CouldNotFindDenom
  /\ error_class CouldNotFindDenom = ConfigError
  /\ events "atom" one 0 (ReplyOk umee_registry)
     = QueryDenomsMetadata :: map denom_info_line (DenomUnits umee_entry)
  /\ queries "atom" one 0 (ReplyOk umee_registry) = 1%nat.
Proof.
  apply (unknown_symbol_rejected "atom" one 0 umee_entry []); reflexivity.
Defined.

(** C7, as stated, fails: with a symbol and a coefficient override the
    registry is never asked for, so an empty registry does not make
    [resolve] fail. *)
Lemma empty_registry_with_override :
  resolve "umee" (of_pos 1000000) 0 (ReplyOk []) = Resolved "umee" (of_pos 1000000)
  /\ queries "umee" (of_pos 1000000) 0 (ReplyOk []) = 0%nat.
Proof. split; reflexivity. Qed.

(** C7, amended: for every input that reaches the node query (no symbol,
    or a symbol with coefficient and exponent at their defaults) and gets
    an empty registry, [resolve] fails with a ConfigError (no denom infos)
    and returns no configuration. *)
Theorem empty_registry_rejected (symbol : string) (c : float64) (e : Z) :
  defers_to_node symbol c e = true ->
  resolve symbol c e (ReplyOk []) = Failed NoDenomInfos
  /\ error_class NoDenomInfos = ConfigError
  /\ events symbol c e (ReplyOk []) = [QueryDenomsMetadata].
Proof.
  intros Hd. unfold events, resolve.
  rewrite run_empty_registry by exact Hd.
  split; [reflexivity |]. split; reflexivity.
Qed.

Lemma empty_registry_rejected_witness :
  resolve "" one 0 (ReplyOk []) = Failed NoDenomInfos
  /\ error_class NoDenomInfos = ConfigError
  /\ events "" one 0 (ReplyOk []) = [QueryDenomsMetadata].
Proof.
  apply (empty_registry_rejected "" one 0). reflexivity.
Defined.

(** C8: with an empty symbol [resolve] skips the override step whatever
    coefficient and exponent were supplied: the step returns false and
    changes nothing, the run is the run with both at their defaults (same
    outcome, same events), it starts with the node query, and it never
    fails on the overrides. *)
Theorem empty_symbol_skips_overrides (c : float64) (e : Z) (node : NodeReply) :
  checkAndHandleDenomInfoProvidedByUser (start "" c e) = (Ret false, start "" c e)
  /\ resolve "" c e node = resolve "" one 0 node
  /\ events "" c e node = events "" one 0 node
  /\ hd_error (events "" c e node) = Some QueryDenomsMetadata
  /\ resolve "" c e node <> Failed BothProvided.
Proof.
  assert (Hd : defers_to_node "" c e = true) by reflexivity.
  assert (Hd0 : defers_to_node "" one 0 = true) by reflexivity.
  split; [apply check_defers, Hd |].
  destruct node as [| [| metadata others]].
  - unfold events, resolve. rewrite !run_query_error by assumption.
    repeat (split; [reflexivity |]). discriminate.
  - unfold events, resolve. rewrite !run_empty_registry by assumption.
    repeat (split; [reflexivity |]). discriminate.
  - rewrite !resolve_node_path, !events_node_path by assumption.
    repeat (split; [reflexivity |]).
    unfold resolve_from_entry. destruct (find _ _); discriminate.
Qed.

(** The values the resolver tests for: with a non-empty symbol, a
    coefficient equal to 1 and an exponent equal to 0 make the override
    step return false and [resolve] go to the node query; and whenever
    [resolve] returns an override, the coefficient is not 1. *)
Theorem default_values_are_sentinels (symbol : string) (c : float64)
        (node : NodeReply) :
  nonempty symbol = true -> eqb c one = true ->
  checkAndHandleDenomInfoProvidedByUser (start symbol c 0)
  = (Ret false, start symbol c 0)
  /\ hd_error (events symbol c 0 node) = Some QueryDenomsMetadata
  /\ queries symbol c 0 node = 1%nat
  /\ (forall c0 e0 symbol' c',
        uint64_range e0 -> defers_to_node symbol c0 e0 = false ->
        resolve symbol c0 e0 node = Resolved symbol' c' ->
        eqb c' one = false).
Proof.
  intros Hs Hc.
  assert (Hd : defers_to_node symbol c 0 = true).
  { unfold defers_to_node. rewrite Hc. simpl. apply orb_true_r. }
  split; [apply check_defers, Hd |].
  split.
  { destruct node as [| [| metadata others]]; unfold events.
    - rewrite run_query_error by exact Hd. reflexivity.
    - rewrite run_empty_registry by exact Hd. reflexivity.
    - fold (events symbol c 0 (ReplyOk (metadata :: others))).
      rewrite events_node_path by exact Hd. reflexivity. }
  split; [apply queries_node_path, Hd |].
  intros c0 e0 symbol' c' Hr Hnd.
  destruct (override_cases symbol c0 e0)
    as [Hd' | [(Hs' & Hne & ->) | [(Hs' & Heq & Hnz) | (Hs' & Hne & Hnz)]]].
  - rewrite Hd' in Hnd. discriminate.
  - unfold resolve. rewrite run_coefficient by assumption.
    intros [= _ <-]. apply negb_true_iff, Hne.
  - unfold resolve. rewrite run_exponent by assumption.
    intros [= _ <-]. apply Pow10_not_one.
    unfold uint64_range in Hr. unfold int_of_uint64.
    destruct (e0 <? 2 ^ 63) eqn:Hlt; [exact Hnz |].
    apply Z.ltb_ge in Hlt. lia.
  - unfold resolve. rewrite run_both by assumption. discriminate.
Qed.

Lemma default_values_are_sentinels_witness :
  checkAndHandleDenomInfoProvidedByUser (start "umee" one 0)
  = (Ret false, start "umee" one 0)
  /\ hd_error (events "umee" one 0 (ReplyOk umee_registry)) = Some QueryDenomsMetadata
  /\ queries "umee" one 0 (ReplyOk umee_registry) = 1%nat
  /\ (forall c0 e0 symbol' c',
        uint64_range e0 -> defers_to_node "umee" c0 e0 = false ->
        resolve "umee" c0 e0 (ReplyOk umee_registry) = Resolved symbol' c' ->
        eqb c' one = false).
Proof.
  apply (default_values_are_sentinels "umee" one (ReplyOk umee_registry));
    reflexivity.
Defined.

(** C9: the resolver tests the coefficient against 1 and the exponent
    against 0, but nothing installs the 1: [main] binds no flag to
    [DenomCoefficient], which starts at Go's zero value. So an omitted
    coefficient is not the same as a coefficient of 1: with a non-empty
    symbol and both scaling variables as [main] leaves them, [resolve] takes
    the coefficient override, returns the symbol with coefficient 0 and
    sends no query, whatever the node would answer, whereas with the
    coefficient at 1 it sends the query and, on a node with uint32
    exponents, never gives that result. *)
Theorem unset_coefficient_taken_as_override (symbol : string) (node : NodeReply) :
  nonempty symbol = true ->
  resolve symbol startup_DenomCoefficient startup_DenomExponent node
  = Resolved symbol zero
  /\ queries symbol startup_DenomCoefficient startup_DenomExponent node = 0%nat
  /\ queries symbol one 0 node = 1%nat
  /\ (wf_node node = true ->
      resolve symbol one 0 node
      <> resolve symbol startup_DenomCoefficient startup_DenomExponent node).
Proof.
  intros Hs. pose proof (nonempty_neq _ Hs) as Hne.
  unfold startup_DenomCoefficient, startup_DenomExponent.
  assert (Hd : defers_to_node symbol one 0 = true)
    by (unfold defers_to_node; simpl; apply orb_true_r).
  assert (Hres : resolve symbol zero 0 node = Resolved symbol zero).
  { unfold resolve. rewrite run_coefficient by (assumption || reflexivity).
    reflexivity. }
  split; [exact Hres |].
  split.
  { unfold queries, events. rewrite run_coefficient by (assumption || reflexivity).
    reflexivity. }
  split; [apply queries_node_path, Hd |].
  intros Hwf. rewrite Hres. destruct node as [| [| metadata others]].
  - unfold resolve. rewrite run_query_error by exact Hd. discriminate.
  - unfold resolve. rewrite run_empty_registry by exact Hd. discriminate.
  - rewrite resolve_node_path by exact Hd. unfold resolve_from_entry.
    destruct (find _ (DenomUnits metadata)) as [u |] eqn:Hfind; [| discriminate].
    intros [= _ Hzero].
    assert (Hpos : ltb zero (Pow10 (int_of_uint32 (unit_Exponent u))) = true).
    { apply Pow10_positive. apply find_some in Hfind. destruct Hfind as [Hin _].
      simpl in Hwf. apply andb_true_iff in Hwf. destruct Hwf as [Hm _].
      unfold wf_metadata in Hm. rewrite forallb_forall in Hm.
      specialize (Hm u Hin). unfold wf_unit in Hm.
      apply andb_true_iff in Hm. destruct Hm as [Hlo _].
      apply Z.leb_le in Hlo. exact Hlo. }
    rewrite Hzero in Hpos. discriminate.
Qed.

Lemma unset_coefficient_taken_as_override_witness :
  resolve "umee" startup_DenomCoefficient startup_DenomExponent (ReplyOk umee_registry)
  = Resolved "umee" zero
  /\ queries "umee" startup_DenomCoefficient startup_DenomExponent
             (ReplyOk umee_registry) = 0%nat
  /\ queries "umee" one 0 (ReplyOk umee_registry) = 1%nat
  /\ (wf_node (ReplyOk umee_registry) = true ->
      resolve "umee" one 0 (ReplyOk umee_registry)
      <> resolve "umee" startup_DenomCoefficient startup_DenomExponent
                 (ReplyOk umee_registry)).
Proof.
  apply (unset_coefficient_taken_as_override "umee" (ReplyOk umee_registry)).
  reflexivity.
Defined.

(** C10: on the node path the units of the selected entry are scanned in
    list order and the first unit named like the resolved symbol gives the
    coefficient: the outcome is 10 to that unit's exponent and the events
    stop at that unit, whatever units follow it, so a later unit with the
    same name and another exponent is never examined. *)
Theorem first_matching_unit_wins (symbol : string) (c : float64) (e : Z)
        (before after : list DenomUnit) (u : DenomUnit) (display : string)
        (others : list Metadata) :
  defers_to_node symbol c e = true ->
  occurs (target symbol (listing before u after display)) before = false ->
  String.eqb (unit_Denom u) (target symbol (listing before u after display)) = true ->
  resolve symbol c e (ReplyOk (listing before u after display :: others))
  = Resolved (target symbol (listing before u after display))
             (Pow10 (int_of_uint32 (unit_Exponent u)))
  /\ events symbol c e (ReplyOk (listing before u after display :: others))
     = QueryDenomsMetadata
         :: map denom_info_line (before ++ [u])
         ++ [got_denom_info_line (target symbol (listing before u after display))
                                 (Pow10 (int_of_uint32 (unit_Exponent u)))].
Proof.
  intros Hd Hocc Hu. apply String.eqb_eq in Hu.
  assert (Hrun := setDenom_first_match symbol c e before after u display others
                    Hd (occurs_false _ _ Hocc) Hu).
  unfold listing in *. unfold events, resolve. rewrite Hrun.
  split; [reflexivity |]. cbn [snd trace]. apply rev_involutive.
Qed.

Lemma first_matching_unit_wins_witness :
  resolve "umee" one 0
          (ReplyOk (listing [mkDenomUnit "uumee" 0] (mkDenomUnit "umee" 6)
                            [mkDenomUnit "umee" 9] "uumee" :: []))
  = Resolved (target "umee" (listing [mkDenomUnit "uumee" 0] (mkDenomUnit "umee" 6)
                                     [mkDenomUnit "umee" 9] "uumee"))
             (Pow10 (int_of_uint32 (unit_Exponent (mkDenomUnit "umee" 6))))
  /\ events "umee" one 0
            (ReplyOk (listing [mkDenomUnit "uumee" 0] (mkDenomUnit "umee" 6)
                              [mkDenomUnit "umee" 9] "uumee" :: []))
     = QueryDenomsMetadata
         :: map denom_info_line ([mkDenomUnit "uumee" 0] ++ [mkDenomUnit "umee" 6])
         ++ [got_denom_info_line
               (target "umee" (listing [mkDenomUnit "uumee" 0] (mkDenomUnit "umee" 6)
                                       [mkDenomUnit "umee" 9] "uumee"))
               (Pow10 (int_of_uint32 (unit_Exponent (mkDenomUnit "umee" 6))))].
Proof.
  apply (first_matching_unit_wins "umee" one 0
           [mkDenomUnit "uumee" 0] [mkDenomUnit "umee" 9] (mkDenomUnit "umee" 6)
           "uumee" []); reflexivity.
Defined.

(** The entry that lists "umee" at exponents 6 and 9 resolves to 10^6 and
    logs the first two units only. *)
Example twice_listed_unit :
  resolve "umee" one 0 (ReplyOk [twice_entry]) = Resolved "umee" (of_pos 1000000)
  /\ events "umee" one 0 (ReplyOk [twice_entry])
     = [QueryDenomsMetadata;
        denom_info_line (mkDenomUnit "uumee" 0);
        denom_info_line (mkDenomUnit "umee" 6);
        got_denom_info_line "umee" (of_pos 1000000)].
Proof. vm_compute. split; reflexivity. Qed.

(** The package variables as [main] leaves them resolve, without a node
    query, to the "api" default as symbol and 0 as coefficient. *)
Example startup_defaults :
  resolve startup_Denom startup_DenomCoefficient startup_DenomExponent ReplyErr
  = Resolved "http://127.0.0.1:1317" zero
  /\ queries startup_Denom startup_DenomCoefficient startup_DenomExponent ReplyErr
     = 0%nat.
Proof. vm_compute. split; reflexivity. Qed.

(** ** Further properties of the resolver *)

Lemma not_defers (symbol : string) (c : float64) (e : Z) :
  symbol <> "" -> neqb c one = true \/ e <> 0 -> defers_to_node symbol c e = false.
Proof.
  intros Hs H. unfold defers_to_node. rewrite (empty_eqb _ Hs). simpl.
  destruct H as [Hc | He].
  - unfold neqb in Hc. apply negb_true_iff in Hc. unfold eqb. rewrite Hc. reflexivity.
  - apply Z.eqb_neq in He. rewrite He. apply andb_false_r.
Qed.

Lemma find_occurs (symbol : string) (units : list DenomUnit) :
  occurs symbol units = true <->
  exists u, find (fun u => String.eqb (unit_Denom u) symbol) units = Some u.
Proof.
  unfold occurs. induction units as [| v units IH]; simpl.
  - split; [discriminate | intros [u Hu]; discriminate].
  - destruct (String.eqb (unit_Denom v) symbol); simpl.
    + split; [intros _; exists v; reflexivity | reflexivity].
    + exact IH.
Qed.

(** The node path over a non-empty registry ends in one of two ways. *)
Lemma run_node_entry (symbol : string) (c : float64) (e : Z)
      (metadata : Metadata) (others : list Metadata) :
  defers_to_node symbol c e = true ->
  (exists before u after,
      DenomUnits metadata = before ++ u :: after
      /\ find (fun u => String.eqb (unit_Denom u) (target symbol metadata))
              (DenomUnits metadata) = Some u
      /\ unit_Denom u = target symbol metadata
      /\ setDenom (ReplyOk (metadata :: others)) (start symbol c e) =
           (Ret tt,
            mkState (target symbol metadata) (Pow10 (int_of_uint32 (unit_Exponent u))) e
              (rev (QueryDenomsMetadata
                      :: map denom_info_line (before ++ [u])
                      ++ [got_denom_info_line (target symbol metadata)
                            (Pow10 (int_of_uint32 (unit_Exponent u)))]))))
  \/ (occurs (target symbol metadata) (DenomUnits metadata) = false
      /\ setDenom (ReplyOk (metadata :: others)) (start symbol c e) =
           (Exit CouldNotFindDenom,
            mkState (target symbol metadata) c e
              (rev (QueryDenomsMetadata :: map denom_info_line (DenomUnits metadata))))).
Proof.
  intros Hd.
  destruct (find (fun u => String.eqb (unit_Denom u) (target symbol metadata))
                 (DenomUnits metadata)) as [u |] eqn:Hfind.
  - left. destruct (find_first _ _ _ Hfind) as (before & after & Hunits & Hu & Hb).
    exists before, u, after. apply String.eqb_eq in Hu.
    split; [exact Hunits |]. split; [reflexivity |]. split; [exact Hu |].
    destruct metadata as [units display]. simpl in Hunits. subst units.
    apply setDenom_first_match; [exact Hd | | exact Hu].
    intros v Hv. apply String.eqb_neq, Hb, Hv.
  - right.
    assert (Hocc : occurs (target symbol metadata) (DenomUnits metadata) = false).
    { destruct (occurs _ _) eqn:Ho; [| reflexivity].
      apply find_occurs in Ho. destruct Ho as [u Hu]. rewrite Hu in Hfind. discriminate. }
    split; [exact Hocc |].
    apply setDenom_no_match; [exact Hd | apply occurs_false, Hocc].
Qed.

Lemma Pow10_at_least_one (n : Z) : 0 <= n -> f64_leb one (Pow10 n) = true.
Proof.
  intros Hn. destruct (Z_le_gt_dec n 308) as [Hle | Hgt].
  - apply (range_check (fun z => f64_leb one (Pow10 z)) 309);
      [vm_compute; reflexivity | lia].
  - rewrite Pow10_above by lia. reflexivity.
Qed.

Lemma Pow10_below_one (n : Z) : n < 0 -> ltb (Pow10 n) one = true.
Proof.
  intros Hn. destruct (Z_lt_le_dec n (-323)) as [Hlow | Hlow].
  - rewrite Pow10_below by lia. reflexivity.
  - assert (Hc : ltb (Pow10 (- (- n - 1) - 1)) one = true).
    { apply (range_check (fun z => ltb (Pow10 (- z - 1)) one) 323);
        [vm_compute; reflexivity | lia]. }
    replace (- (- n - 1) - 1) with n in Hc by lia. exact Hc.
Qed.

(** X1: when the overrides leave the scaling to the node and the
    DenomsMetadata query fails, [resolve] ends with the fatal "Error
    querying denom", an UpstreamError, after that one query. *)
Theorem query_failure_is_fatal (symbol : string) (c : float64) (e : Z) :
  defers_to_node symbol c e = true ->
  resolve symbol c e ReplyErr = Failed ErrorQueryingDenom
  /\ error_class ErrorQueryingDenom = UpstreamError
  /\ events symbol c e ReplyErr = [QueryDenomsMetadata].
Proof.
  intros Hd. unfold events, resolve. rewrite run_query_error by exact Hd.
  split; [reflexivity |]. split; reflexivity.
Qed.

Lemma query_failure_is_fatal_witness :
  resolve "umee" one 0 ReplyErr = Failed ErrorQueryingDenom
  /\ error_class ErrorQueryingDenom = UpstreamError
  /\ events "umee" one 0 ReplyErr = [QueryDenomsMetadata].
Proof. apply (query_failure_is_fatal "umee" one 0). reflexivity. Defined.

Lemma queries_closed (symbol : string) (c : float64) (e : Z) (node : NodeReply) :
  queries symbol c e node = if defers_to_node symbol c e then 1%nat else 0%nat.
Proof.
  destruct (override_cases symbol c e)
    as [Hd | [(Hs & Hne & ->) | [(Hs & Heq & Hnz) | (Hs & Hne & Hnz)]]].
  - rewrite Hd. apply queries_node_path, Hd.
  - rewrite not_defers by auto. unfold queries, events.
    rewrite run_coefficient by assumption. reflexivity.
  - rewrite not_defers by auto. unfold queries, events.
    rewrite run_exponent by assumption. reflexivity.
  - rewrite not_defers by auto. unfold queries, events.
    rewrite run_both by assumption. reflexivity.
Qed.

(** X2: a run issues the DenomsMetadata query exactly once when the
    overrides leave the scaling to the node and never otherwise, whatever
    the node would answer. *)
Theorem queries_decided_by_overrides (symbol : string) (c : float64) (e : Z)
        (node : NodeReply) :
  queries symbol c e node = if defers_to_node symbol c e then 1%nat else 0%nat.
Proof. apply queries_closed. Qed.

(** X3: on the node path over a non-empty registry, [resolve] succeeds
    exactly when a unit of the first entry carries the target name (the
    operator's symbol, or the entry's display name when none was given);
    otherwise it fails with "Could not find the denom info". *)
Theorem node_resolution_needs_listed_unit (symbol : string) (c : float64) (e : Z)
        (metadata : Metadata) (others : list Metadata) :
  defers_to_node symbol c e = true ->
  (occurs (target symbol metadata) (DenomUnits metadata) = true <->
   exists c', resolve symbol c e (ReplyOk (metadata :: others))
              = Resolved (target symbol metadata) c')
  /\ (occurs (target symbol metadata) (DenomUnits metadata) = false <->
      resolve symbol c e (ReplyOk (metadata :: others)) = Failed CouldNotFindDenom).
Proof.
  intros Hd. unfold resolve.
  destruct (run_node_entry symbol c e metadata others Hd)
    as [(before & u & after & Hunits & Hfind & Hu & Hrun) | [Hocc Hrun]];
    rewrite Hrun; cbn [Denom DenomCoefficient].
  - assert (Ho : occurs (target symbol metadata) (DenomUnits metadata) = true)
      by (apply find_occurs; exists u; exact Hfind).
    rewrite Ho. split; split; try discriminate.
    + intros _. eexists. reflexivity.
    + reflexivity.
  - rewrite Hocc. split; split; try discriminate; try reflexivity.
    intros [c' Hc']. discriminate.
Qed.

Lemma node_resolution_needs_listed_unit_witness :
  (occurs (target "" umee_entry) (DenomUnits umee_entry) = true <->
   exists c', resolve "" one 0 (ReplyOk (umee_entry :: [atom_entry]))
              = Resolved (target "" umee_entry) c')
  /\ (occurs (target "" umee_entry) (DenomUnits umee_entry) = false <->
      resolve "" one 0 (ReplyOk (umee_entry :: [atom_entry])) = Failed CouldNotFindDenom).
Proof.
  apply (node_resolution_needs_listed_unit "" one 0 umee_entry [atom_entry]).
  reflexivity.
Defined.

Lemma node_resolution_sound (symbol : string) (c : float64) (e : Z)
      (metadata : Metadata) (others : list Metadata)
      (symbol' : string) (c' : float64) :
  defers_to_node symbol c e = true ->
  resolve symbol c e (ReplyOk (metadata :: others)) = Resolved symbol' c' ->
  symbol' = target symbol metadata
  /\ exists u, In u (DenomUnits metadata)
               /\ unit_Denom u = symbol'
               /\ c' = Pow10 (int_of_uint32 (unit_Exponent u)).
Proof.
  intros Hd. unfold resolve.
  destruct (run_node_entry symbol c e metadata others Hd)
    as [(before & u & after & Hunits & Hfind & Hu & Hrun) | [Hocc Hrun]];
    rewrite Hrun; cbn [Denom DenomCoefficient]; [| discriminate].
  intros [= <- <-]. split; [reflexivity |].
  exists u. split; [| split; [exact Hu | reflexivity]].
  rewrite Hunits. apply in_or_app. right. left. reflexivity.
Qed.

(** X4: a coefficient resolved from the node comes from a unit of the
    first entry: that unit carries the resolved symbol, and the coefficient
    is [math.Pow10] of that unit's exponent; no other entry and no unit of
    another name contributes. *)
Theorem node_coefficient_from_listed_unit (symbol : string) (c : float64) (e : Z)
        (metadata : Metadata) (others : list Metadata)
        (symbol' : string) (c' : float64) :
  defers_to_node symbol c e = true ->
  resolve symbol c e (ReplyOk (metadata :: others)) = Resolved symbol' c' ->
  symbol' = target symbol metadata
  /\ exists u, In u (DenomUnits metadata)
               /\ unit_Denom u = symbol'
               /\ c' = Pow10 (int_of_uint32 (unit_Exponent u)).
Proof. apply node_resolution_sound. Qed.

Lemma node_coefficient_from_listed_unit_witness :
  resolve "umee" one 0 (ReplyOk [umee_entry]) = Resolved "umee" (of_pos 1000000)
  /\ "umee" = target "umee" umee_entry
  /\ exists u, In u (DenomUnits umee_entry)
               /\ unit_Denom u = "umee"
               /\ of_pos 1000000 = Pow10 (int_of_uint32 (unit_Exponent u)).
Proof.
  split; [reflexivity |].
  apply (node_coefficient_from_listed_unit "umee" one 0 umee_entry [] "umee"
           (of_pos 1000000)); reflexivity.
Defined.

(** X5: a coefficient resolved from a node whose exponents are uint32
    values is at least 1 (a power of ten of a non-negative exponent, +Inf
    above 308): it is never a fraction, zero, negative or NaN. *)
Theorem node_coefficient_at_least_one (symbol : string) (c : float64) (e : Z)
        (node : NodeReply) (symbol' : string) (c' : float64) :
  defers_to_node symbol c e = true -> wf_node node = true ->
  resolve symbol c e node = Resolved symbol' c' ->
  f64_leb one c' = true.
Proof.
  intros Hd Hwf. destruct node as [| [| metadata others]].
  - unfold resolve. rewrite run_query_error by exact Hd. discriminate.
  - unfold resolve. rewrite run_empty_registry by exact Hd. discriminate.
  - intros Hres.
    destruct (node_resolution_sound _ _ _ _ _ _ _ Hd Hres)
      as (_ & u & Hin & _ & ->).
    apply Pow10_at_least_one.
    simpl in Hwf. apply andb_true_iff in Hwf. destruct Hwf as [Hm _].
    unfold wf_metadata in Hm. rewrite forallb_forall in Hm.
    specialize (Hm u Hin). unfold wf_unit in Hm.
    apply andb_true_iff in Hm. destruct Hm as [Hlo _].
    apply Z.leb_le in Hlo. exact Hlo.
Qed.

Lemma node_coefficient_at_least_one_witness :
  resolve "umee" one 0 (ReplyOk umee_registry) = Resolved "umee" (of_pos 1000000)
  /\ f64_leb one (of_pos 1000000) = true.
Proof.
  split; [reflexivity |].
  apply (node_coefficient_at_least_one "umee" one 0 (ReplyOk umee_registry)
           "umee" (of_pos 1000000)); reflexivity.
Defined.

(** X6: an exponent override of 2^63 or more is read as a negative [int]:
    the resolved coefficient is then below 1, and it is 0 for every such
    exponent below 2^64 - 323. *)
Theorem exponent_override_wraps (symbol : string) (c : float64) (e : Z)
        (node : NodeReply) :
  nonempty symbol = true -> eqb c one = true -> 2 ^ 63 <= e < 2 ^ 64 ->
  resolve symbol c e node = Resolved symbol (Pow10 (e - 2 ^ 64))
  /\ ltb (Pow10 (e - 2 ^ 64)) one = true
  /\ (e < 2 ^ 64 - 323 -> Pow10 (e - 2 ^ 64) = zero).
Proof.
  intros Hs Hc He. apply nonempty_neq in Hs.
  unfold resolve. rewrite run_exponent by (assumption || lia).
  unfold int_of_uint64.
  replace (e <? 2 ^ 63) with false by (symmetry; apply Z.ltb_ge; lia).
  split; [reflexivity |].
  split; [apply Pow10_below_one; lia |].
  intros Hlow. apply Pow10_below. lia.
Qed.

Lemma exponent_override_wraps_witness :
  resolve "umee" one (2 ^ 64 - 1) ReplyErr = Resolved "umee" (Pow10 (2 ^ 64 - 1 - 2 ^ 64))
  /\ ltb (Pow10 (2 ^ 64 - 1 - 2 ^ 64)) one = true
  /\ (2 ^ 64 - 1 < 2 ^ 64 - 323 -> Pow10 (2 ^ 64 - 1 - 2 ^ 64) = zero).
Proof.
  apply (exponent_override_wraps "umee" one (2 ^ 64 - 1) ReplyErr);
    [reflexivity | reflexivity | lia].
Defined.

(** X7: an exponent override above 308 (and below 2^63) resolves to the
    coefficient +Inf, without any failure and without a node query. *)
Theorem exponent_override_overflows (symbol : string) (c : float64) (e : Z)
        (node : NodeReply) :
  nonempty symbol = true -> eqb c one = true -> 308 < e < 2 ^ 63 ->
  resolve symbol c e node = Resolved symbol pos_inf
  /\ events symbol c e node = [using_exponent_line symbol e pos_inf].
Proof.
  intros Hs Hc He. apply nonempty_neq in Hs.
  unfold events, resolve. rewrite run_exponent by (assumption || lia).
  unfold int_of_uint64.
  replace (e <? 2 ^ 63) with true by (symmetry; apply Z.ltb_lt; lia).
  rewrite Pow10_above by lia. split; reflexivity.
Qed.

Lemma exponent_override_overflows_witness :
  resolve "umee" one 309 ReplyErr = Resolved "umee" pos_inf
  /\ events "umee" one 309 ReplyErr = [using_exponent_line "umee" 309 pos_inf].
Proof.
  apply (exponent_override_overflows "umee" one 309 ReplyErr);
    [reflexivity | reflexivity | lia].
Defined.

(** X8: [setDenom] never writes [DenomExponent], and a run that ends in
    [log.Fatal] has not written [DenomCoefficient] either: the coefficient
    is assigned only on the paths that return. *)
Theorem failure_leaves_scaling (symbol : string) (c : float64) (e : Z)
        (node : NodeReply) :
  DenomExponent (snd (setDenom node (start symbol c e))) = e
  /\ (forall m, fst (setDenom node (start symbol c e)) = Exit m ->
                DenomCoefficient (snd (setDenom node (start symbol c e))) = c).
Proof.
  destruct (override_cases symbol c e)
    as [Hd | [(Hs & Hne & ->) | [(Hs & Heq & Hnz) | (Hs & Hne & Hnz)]]].
  - destruct node as [| [| metadata others]].
    + rewrite run_query_error by exact Hd. split; [reflexivity | reflexivity].
    + rewrite run_empty_registry by exact Hd. split; [reflexivity | reflexivity].
    + destruct (run_node_entry symbol c e metadata others Hd)
        as [(before & u & after & Hunits & Hfind & Hu & Hrun) | [Hocc Hrun]];
        rewrite Hrun; split; try reflexivity.
      intros m. discriminate.
  - rewrite run_coefficient by assumption. split; [reflexivity | reflexivity].
  - rewrite run_exponent by assumption. split; [reflexivity |].
    intros m. discriminate.
  - rewrite run_both by assumption. split; [reflexivity | reflexivity].
Qed.

(** X9: [resolve] is decided by cases in a fixed order: the overrides
    leave the scaling to the node (then the node's answer decides: query
    error, empty registry, first entry); else both scalings given (fatal);
    else a coefficient (returned as is); else an exponent. *)
Theorem resolve_decided_by_cases (symbol : string) (c : float64) (e : Z)
        (node : NodeReply) :
  resolve symbol c e node = resolve_by_cases symbol c e node.
Proof.
  unfold resolve_by_cases.
  destruct (override_cases symbol c e)
    as [Hd | [(Hs & Hne & ->) | [(Hs & Heq & Hnz) | (Hs & Hne & Hnz)]]].
  - rewrite Hd. destruct node as [| [| metadata others]].
    + unfold resolve. rewrite run_query_error by exact Hd. reflexivity.
    + unfold resolve. rewrite run_empty_registry by exact Hd. reflexivity.
    + apply resolve_node_path, Hd.
  - rewrite not_defers by auto. rewrite Hne. simpl.
    unfold resolve. rewrite run_coefficient by assumption. reflexivity.
  - rewrite not_defers by auto.
    unfold neqb. unfold eqb in Heq. rewrite Heq. simpl.
    unfold resolve. rewrite run_exponent by assumption. reflexivity.
  - rewrite not_defers by auto. rewrite Hne.
    apply Z.eqb_neq in Hnz. rewrite Hnz. simpl.
    unfold resolve. rewrite run_both by (assumption || apply Z.eqb_neq, Hnz).
    reflexivity.
Qed.

(** X10: a symbol given by the operator is never replaced: whenever
    [resolve] succeeds on a non-empty symbol, by override or from the node,
    the resolved symbol is that symbol. *)
Theorem operator_symbol_kept (symbol : string) (c : float64) (e : Z)
        (node : NodeReply) (symbol' : string) (c' : float64) :
  nonempty symbol = true ->
  resolve symbol c e node = Resolved symbol' c' ->
  symbol' = symbol.
Proof.
  intros Hs. apply nonempty_neq in Hs.
  destruct (override_cases symbol c e)
    as [Hd | [(_ & Hne & ->) | [(_ & Heq & Hnz) | (_ & Hne & Hnz)]]].
  - destruct node as [| [| metadata others]].
    + unfold resolve. rewrite run_query_error by exact Hd. discriminate.
    + unfold resolve. rewrite run_empty_registry by exact Hd. discriminate.
    + intros Hres.
      destruct (node_resolution_sound _ _ _ _ _ _ _ Hd Hres) as [-> _].
      unfold target. rewrite (empty_eqb _ Hs). reflexivity.
  - unfold resolve. rewrite run_coefficient by assumption.
    intros [= <- _]. reflexivity.
  - unfold resolve. rewrite run_exponent by assumption.
    intros [= <- _]. reflexivity.
  - unfold resolve. rewrite run_both by assumption. discriminate.
Qed.

Lemma operator_symbol_kept_witness :
  resolve "umee" one 0 (ReplyOk umee_registry) = Resolved "umee" (of_pos 1000000)
  /\ "umee" = "umee".
Proof.
  split; [reflexivity |].
  apply (operator_symbol_kept "umee" one 0 (ReplyOk umee_registry) "umee"
           (of_pos 1000000)); reflexivity.
Defined.

(** ** The bech32 prefixes *)

Lemma append_nonempty (a b : string) : b <> "" -> String.append a b <> "".
Proof.
  intros Hb. destruct a as [| ch a]; simpl; [exact Hb | discriminate].
Qed.

Lemma append_inj (a b c : string) : String.append a b = String.append a c -> b = c.
Proof.
  induction a as [| ch a IH]; simpl; [auto |].
  intros [= H]. apply IH, H.
Qed.

Lemma append_empty_r (a : string) : String.append a "" = a.
Proof. induction a as [| ch a IH]; simpl; [reflexivity | rewrite IH; reflexivity]. Qed.

Lemma NoDup_map_inj {A B} (f : A -> B) (l : list A) :
  (forall x y, f x = f y -> x = y) -> NoDup l -> NoDup (map f l).
Proof.
  intros Hinj Hl. induction Hl as [| a l Ha Hl IH]; simpl; constructor.
  - intros Hin. apply in_map_iff in Hin. destruct Hin as (b & Hb & Hin).
    apply Hinj in Hb. subst b. contradiction.
  - exact IH.
Qed.

Lemma flag_or_unusable (got : string * bool) (fallback : string) :
  usable got = false -> flag_or got fallback = fallback.
Proof. destruct got as [flag ok]. unfold usable, flag_or. simpl. intros ->. reflexivity. Qed.

Lemma flag_or_usable (got : string * bool) (fallback : string) :
  usable got = true -> flag_or got fallback = fst got.
Proof. destruct got as [flag ok]. unfold usable, flag_or. simpl. intros ->. reflexivity. Qed.

Lemma flag_or_nonempty (got : string * bool) (fallback : string) :
  fallback <> "" -> flag_or got fallback <> "".
Proof.
  intros Hf. destruct (usable got) eqn:Hu.
  - rewrite flag_or_usable by exact Hu. unfold usable in Hu.
    apply andb_true_iff in Hu. destruct Hu as [Hn _]. apply nonempty_neq, Hn.
  - rewrite flag_or_unusable by exact Hu. exact Hf.
Qed.

(** The six assignments of [setBechPrefixes] read [Prefix] and the flags
    only, so they amount to one record. *)
Lemma setBechPrefixes_record (fs : FlagSet) (p : Prefixes) :
  setBechPrefixes fs p =
  mkPrefixes (Prefix p)
    (flag_or (GetString fs "bech-account-prefix") (Prefix p))
    (flag_or (GetString fs "bech-account-pubkey-prefix")
             (String.append (Prefix p) "pub"))
    (flag_or (GetString fs "bech-validator-prefix")
             (String.append (Prefix p) "valoper"))
    (flag_or (GetString fs "bech-validator-pubkey-prefix")
             (String.append (Prefix p) "valoperpub"))
    (flag_or (GetString fs "bech-consensus-node-prefix")
             (String.append (Prefix p) "valcons"))
    (flag_or (GetString fs "bech-consensus-node-pubkey-prefix")
             (String.append (Prefix p) "valconspub")).
Proof. reflexivity. Qed.

(** X11: when no prefix flag gives a usable value (missing, of another
    type, or empty), [setBechPrefixes] derives all six prefixes from
    [Prefix] with the suffixes "", "pub", "valoper", "valoperpub",
    "valcons" and "valconspub", and the six are pairwise distinct. *)
Theorem prefixes_derived_and_distinct (fs : FlagSet) (p : Prefixes) :
  no_bech_flags fs = true ->
  prefix_list (setBechPrefixes fs p)
  = map (String.append (Prefix p))
        [""; "pub"; "valoper"; "valoperpub"; "valcons"; "valconspub"]
  /\ NoDup (prefix_list (setBechPrefixes fs p)).
Proof.
  unfold no_bech_flags, bech_flag_names. simpl. intros H.
  repeat (apply andb_true_iff in H; destruct H as [?H H]).
  repeat match goal with
         | Hx : negb (usable _) = true |- _ => apply negb_true_iff in Hx
         end.
  assert (Hlist : prefix_list (setBechPrefixes fs p)
                  = map (String.append (Prefix p))
                        [""; "pub"; "valoper"; "valoperpub"; "valcons"; "valconspub"]).
  { rewrite setBechPrefixes_record. unfold prefix_list.
    cbn [AccountPrefix AccountPubkeyPrefix ValidatorPrefix ValidatorPubkeyPrefix
         ConsensusNodePrefix ConsensusNodePubkeyPrefix map].
    rewrite !flag_or_unusable by assumption.
    rewrite append_empty_r. reflexivity. }
  split; [exact Hlist |]. rewrite Hlist.
  apply NoDup_map_inj.
  - intros a b Hab. apply (append_inj _ _ _ Hab).
  - repeat constructor; simpl; intuition discriminate.
Qed.

Lemma prefixes_derived_and_distinct_witness :
  prefix_list (setBechPrefixes (main_flags None None None) example_prefixes)
  = map (String.append (Prefix example_prefixes))
        [""; "pub"; "valoper"; "valoperpub"; "valcons"; "valconspub"]
  /\ NoDup (prefix_list (setBechPrefixes (main_flags None None None) example_prefixes)).
Proof.
  apply (prefixes_derived_and_distinct (main_flags None None None) example_prefixes).
  reflexivity.
Defined.

(** X12: after [setBechPrefixes] the five prefixes with a suffix are never
    empty, whatever the flags and [Prefix]; [AccountPrefix] is empty
    exactly when its flag gives no usable value and [Prefix] is empty. *)
Theorem suffixed_prefixes_nonempty (fs : FlagSet) (p : Prefixes) :
  AccountPubkeyPrefix (setBechPrefixes fs p) <> ""
  /\ ValidatorPrefix (setBechPrefixes fs p) <> ""
  /\ ValidatorPubkeyPrefix (setBechPrefixes fs p) <> ""
  /\ ConsensusNodePrefix (setBechPrefixes fs p) <> ""
  /\ ConsensusNodePubkeyPrefix (setBechPrefixes fs p) <> ""
  /\ (AccountPrefix (setBechPrefixes fs p) = "" <->
      usable (GetString fs "bech-account-prefix") = false /\ Prefix p = "").
Proof.
  rewrite setBechPrefixes_record.
  cbn [AccountPrefix AccountPubkeyPrefix ValidatorPrefix ValidatorPubkeyPrefix
       ConsensusNodePrefix ConsensusNodePubkeyPrefix].
  repeat (split; [apply flag_or_nonempty, append_nonempty; discriminate |]).
  destruct (usable (GetString fs "bech-account-prefix")) eqn:Hu.
  - rewrite flag_or_usable by exact Hu. unfold usable in Hu.
    apply andb_true_iff in Hu. destruct Hu as [Hn _]. apply nonempty_neq in Hn.
    split; [intros H; contradiction | intros [H _]; discriminate].
  - rewrite flag_or_unusable by exact Hu. split; [auto | intros [_ H]; exact H].
Qed.

(** X13: [setBechPrefixes] overwrites all six prefixes from the flags and
    [Prefix] alone and leaves [Prefix] as it is: earlier values of the six
    never survive, and calling it again changes nothing. *)
Theorem prefixes_depend_on_flags_and_prefix (fs : FlagSet) (p q : Prefixes) :
  Prefix p = Prefix q ->
  setBechPrefixes fs p = setBechPrefixes fs q
  /\ Prefix (setBechPrefixes fs p) = Prefix p
  /\ setBechPrefixes fs (setBechPrefixes fs p) = setBechPrefixes fs p.
Proof.
  intros Hpq. rewrite !setBechPrefixes_record. cbn [Prefix]. rewrite Hpq.
  split; [reflexivity |]. split; reflexivity.
Qed.

Lemma prefixes_depend_on_flags_and_prefix_witness :
  setBechPrefixes (main_flags None None None) example_prefixes
  = setBechPrefixes (main_flags None None None)
                    (mkPrefixes "umee" "a" "b" "c" "d" "e" "f")
  /\ Prefix (setBechPrefixes (main_flags None None None) example_prefixes)
     = Prefix example_prefixes
  /\ setBechPrefixes (main_flags None None None)
                     (setBechPrefixes (main_flags None None None) example_prefixes)
     = setBechPrefixes (main_flags None None None) example_prefixes.
Proof.
  apply (prefixes_depend_on_flags_and_prefix (main_flags None None None)
           example_prefixes (mkPrefixes "umee" "a" "b" "c" "d" "e" "f")).
  reflexivity.
Defined.

(** ** The pre-run: command line, configuration file, defaults *)

Lemma Lookup_skip (done rest : FlagSet) (name : string) :
  ~ In name (names done) -> Lookup (done ++ rest) name = Lookup rest name.
Proof.
  unfold Lookup, names. induction done as [| g done IH]; simpl; [reflexivity |].
  intros Hn. destruct (String.eqb_spec (flag_Name g) name) as [He | He].
  - exfalso. apply Hn. left. exact He.
  - apply IH. intros Hin. apply Hn. right. exact Hin.
Qed.

Lemma Set_skip (done rest : FlagSet) (name text : string) :
  ~ In name (names done) ->
  FlagSet_Set (done ++ rest) name text
  = option_map (app done) (FlagSet_Set rest name text).
Proof.
  unfold names. induction done as [| g done IH]; simpl; intros Hn.
  - destruct (FlagSet_Set rest name text); reflexivity.
  - destruct (String.eqb_spec (flag_Name g) name) as [He | He].
    + exfalso. apply Hn. left. exact He.
    + rewrite IH by (intros Hin; apply Hn; right; exact Hin).
      destruct (FlagSet_Set rest name text); reflexivity.
Qed.

(** Visiting the flags by name, as [VisitAll] and [Set] do, is the same as
    settling each flag in place, since the names are unique. *)
Lemma visitAll_in_place (v : Viper) (rest done : FlagSet) :
  NoDup (names rest) ->
  (forall name, In name (names rest) -> ~ In name (names done)) ->
  visitAll (names rest) v (done ++ rest)
  = option_map (app done) (configure_all v rest).
Proof.
  revert done. induction rest as [| f rest IH]; intros done Hnd Hdisj.
  - simpl. rewrite app_nil_r. reflexivity.
  - simpl names in *. inversion Hnd as [| n l Hnotin Hnd' [Hn Hl]]. subst n l.
    assert (Hf : ~ In (flag_Name f) (names done)) by (apply Hdisj; left; reflexivity).
    assert (Hnext : forall g : Flag, flag_Name g = flag_Name f ->
              visitAll (names rest) v (done ++ g :: rest)
              = option_map (app done) (option_map (cons g) (configure_all v rest))).
    { intros g Hg.
      replace (done ++ g :: rest) with ((done ++ [g]) ++ rest)
        by (rewrite <- app_assoc; reflexivity).
      rewrite IH.
      - destruct (configure_all v rest); simpl; [| reflexivity].
        rewrite <- app_assoc. reflexivity.
      - exact Hnd'.
      - intros name Hin. unfold names. rewrite map_app. simpl. rewrite Hg.
        intros Hin'. apply in_app_or in Hin'. destruct Hin' as [Hin' | [<- | []]].
        + apply (Hdisj name); [right; exact Hin | exact Hin'].
        + contradiction. }
    simpl visitAll. rewrite (Lookup_skip _ _ _ Hf).
    unfold Lookup at 1. simpl find. rewrite String.eqb_refl.
    simpl configure_all. unfold configured.
    destruct (setting v (flag_Name f)) as [text |].
    + destruct (flag_Changed f); simpl negb; cbv iota.
      * rewrite (Hnext f eq_refl).
        destruct (configure_all v rest); reflexivity.
      * rewrite (Set_skip _ _ _ _ Hf). simpl FlagSet_Set. rewrite String.eqb_refl.
        destruct (value_Set f text) as [t |]; simpl; [| reflexivity].
        rewrite Hnext by reflexivity.
        destruct (configure_all v rest); reflexivity.
    + rewrite (Hnext f eq_refl). destruct (configure_all v rest); reflexivity.
Qed.

Lemma distinct_NoDup (l : list string) : distinct l = true -> NoDup l.
Proof.
  induction l as [| a l IH]; simpl; intros H; constructor.
  - apply andb_true_iff in H. destruct H as [Ha _]. apply negb_true_iff in Ha.
    intros Hin.
    assert (Hex : existsb (String.eqb a) l = true)
      by (apply existsb_exists; exists a; split; [exact Hin | apply String.eqb_refl]).
    rewrite Hex in Ha. discriminate.
  - apply IH. apply andb_true_iff in H. apply H.
Qed.

Lemma visitAll_configure (v : Viper) (fs : FlagSet) :
  unique_names fs = true -> visitAll (names fs) v fs = configure_all v fs.
Proof.
  intros Hu. apply distinct_NoDup in Hu. rewrite <- (app_nil_l fs) at 2.
  rewrite visitAll_in_place; [| exact Hu | intros name _ []].
  destruct (configure_all v fs); reflexivity.
Qed.

Lemma configured_name (v : Viper) (f g : Flag) :
  configured v f = Some g -> flag_Name g = flag_Name f.
Proof.
  unfold configured. destruct (setting v (flag_Name f)) as [text |].
  - destruct (flag_Changed f); [intros [= <-]; reflexivity |].
    destruct (value_Set f text); [intros [= <-]; reflexivity | discriminate].
  - intros [= <-]. reflexivity.
Qed.

Lemma configure_all_Lookup (v : Viper) (fs fs' : FlagSet) (name : string) (f : Flag) :
  configure_all v fs = Some fs' -> Lookup fs name = Some f ->
  exists g, configured v f = Some g /\ Lookup fs' name = Some g.
Proof.
  revert fs'. induction fs as [| h fs IH]; intros fs'; [discriminate 2 |].
  simpl configure_all. destruct (configured v h) as [h' |] eqn:Hh; [| discriminate].
  destruct (configure_all v fs) as [rest' |]; [| discriminate].
  intros [= <-]. unfold Lookup. simpl find.
  rewrite (configured_name _ _ _ Hh).
  destruct (String.eqb (flag_Name h) name).
  - intros [= <-]. exists h'. split; [exact Hh | reflexivity].
  - intros Hl. apply (IH rest' eq_refl Hl).
Qed.

Lemma configure_all_fails (v : Viper) (fs : FlagSet) :
  configure_all v fs = None <-> exists f, In f fs /\ configured v f = None.
Proof.
  induction fs as [| h fs IH]; simpl.
  - split; [discriminate | intros (f & [] & _)].
  - destruct (configured v h) as [h' |] eqn:Hh.
    + destruct (configure_all v fs) as [rest' |].
      * split; [discriminate |].
        intros (f & [<- | Hin] & Hf); [congruence |].
        assert (Hnone : Some rest' = None)
          by (apply IH; exists f; split; assumption).
        discriminate.
      * split; [| reflexivity]. intros _.
        destruct (proj1 IH eq_refl) as (f & Hin & Hf).
        exists f. split; [right; exact Hin | exact Hf].
    + split; [| reflexivity]. intros _. exists h. split; [left; reflexivity | exact Hh].
Qed.

Lemma configured_fails (v : Viper) (f : Flag) :
  configured v f = None <->
  flag_Changed f = false /\ flag_is_string f = false
  /\ exists text, setting v (flag_Name f) = Some text /\ flag_parse f text = None.
Proof.
  unfold configured, value_Set. destruct (setting v (flag_Name f)) as [text |].
  - destruct (flag_Changed f).
    + split; [discriminate | intros [H _]; discriminate].
    + destruct (flag_is_string f).
      * split; [discriminate | intros (_ & H & _); discriminate].
      * destruct (flag_parse f text) eqn:Hp.
        -- split; [discriminate |]. intros (_ & _ & t & [= <-] & Ht). congruence.
        -- split; [| reflexivity]. intros _. repeat split. exists text. split; auto.
  - split; [discriminate | intros (_ & _ & t & Ht & _); discriminate].
Qed.

Lemma Lookup_name (fs : FlagSet) (name : string) (f : Flag) :
  Lookup fs name = Some f -> flag_Name f = name.
Proof.
  unfold Lookup. intros H. apply find_some in H. apply String.eqb_eq, H.
Qed.

(** A pre-run over a configuration that returns nil has settled every
    flag in place. *)
Lemma pre_run_nil (ConfigPath : string) (v : Viper) (fs fs' : FlagSet)
      (p p' : Prefixes) :
  unique_names fs = true -> nonempty ConfigPath = true ->
  PersistentPreRunE ConfigPath v fs p = PreRunNil fs' p' ->
  configure_all v fs = Some fs' /\ p' = setBechPrefixes fs' p.
Proof.
  intros Hu Hc. unfold PersistentPreRunE.
  apply nonempty_neq in Hc. rewrite (empty_eqb _ Hc).
  rewrite visitAll_configure by exact Hu.
  destruct (ReadInConfig v); try discriminate;
    (destruct (configure_all v fs); [intros [= <- <-]; split; reflexivity | discriminate]).
Qed.

Lemma settled_string_flag (v : Viper) (fs fs' : FlagSet) (name : string) (f : Flag) :
  configure_all v fs = Some fs' ->
  Lookup fs name = Some f -> flag_is_string f = true ->
  GetString fs' name = (settled_value v f, true).
Proof.
  intros Hall Hl Hs.
  destruct (configure_all_Lookup _ _ _ _ _ Hall Hl) as (g & Hg & Hl').
  unfold GetString. rewrite Hl'. unfold settled_value.
  unfold configured, value_Set in Hg. rewrite Hs in Hg.
  destruct (flag_Changed f); destruct (setting v (flag_Name f));
    injection Hg as Hg; subst g; simpl; rewrite ?Hs; reflexivity.
Qed.

(** X14: when the pre-run reads a configuration and returns nil, every
    string flag ends with the value of the command line if it was given
    there, else with the value of the configuration if it is set there,
    else with its default. *)
Theorem command_line_then_config (ConfigPath : string) (v : Viper)
        (fs fs' : FlagSet) (p p' : Prefixes) (name : string) (f : Flag) :
  unique_names fs = true -> nonempty ConfigPath = true ->
  PersistentPreRunE ConfigPath v fs p = PreRunNil fs' p' ->
  Lookup fs name = Some f -> flag_is_string f = true ->
  GetString fs' name = (settled_value v f, true).
Proof.
  intros Hu Hc Hrun Hl Hs.
  destruct (pre_run_nil _ _ _ _ _ _ Hu Hc Hrun) as [Hall _].
  exact (settled_string_flag _ _ _ _ _ Hall Hl Hs).
Qed.

Lemma command_line_then_config_witness :
  PersistentPreRunE "config.toml" example_config example_flags example_prefixes
  = PreRunNil example_settled (setBechPrefixes example_settled example_prefixes)
  /\ GetString example_settled "log-level"
     = (settled_value example_config (flag_of "log-level" "info" None), true)
  /\ GetString example_settled "api"
     = (settled_value example_config
                      (flag_of "api" "http://127.0.0.1:1317" (Some "umee")), true).
Proof.
  split; [reflexivity |]. split.
  - apply (command_line_then_config "config.toml" example_config example_flags
             example_settled example_prefixes
             (setBechPrefixes example_settled example_prefixes)
             "log-level" (flag_of "log-level" "info" None)); reflexivity.
  - apply (command_line_then_config "config.toml" example_config example_flags
             example_settled example_prefixes
             (setBechPrefixes example_settled example_prefixes)
             "api" (flag_of "api" "http://127.0.0.1:1317" (Some "umee")));
      reflexivity.
Defined.

(** X15: the pre-run ends in the fatal "Could not set flag" exactly when
    a configuration is read and some flag that is not a string, was not
    given on the command line and is set in the configuration refuses the
    configured text; with string flags only it never does. *)
Theorem pre_run_fatal_iff (ConfigPath : string) (v : Viper) (fs : FlagSet)
        (p : Prefixes) :
  unique_names fs = true ->
  (PersistentPreRunE ConfigPath v fs p = PreRunFatal <->
   nonempty ConfigPath = true /\ ReadInConfig v <> ReadFailed
   /\ exists f text,
        In f fs /\ flag_Changed f = false /\ flag_is_string f = false
        /\ setting v (flag_Name f) = Some text /\ flag_parse f text = None).
Proof.
  intros Hu. unfold PersistentPreRunE, nonempty.
  destruct (String.eqb ConfigPath "").
  { split; [discriminate | intros [H _]; discriminate]. }
  rewrite visitAll_configure by exact Hu.
  assert (Hfail : configure_all v fs = None <->
                  exists f text,
                    In f fs /\ flag_Changed f = false /\ flag_is_string f = false
                    /\ setting v (flag_Name f) = Some text /\ flag_parse f text = None).
  { rewrite configure_all_fails. split.
    - intros (f & Hin & Hf). apply configured_fails in Hf.
      destruct Hf as (Hc & Hs & text & Ht & Hp). exists f, text. auto.
    - intros (f & text & Hin & Hc & Hs & Ht & Hp). exists f. split; [exact Hin |].
      apply configured_fails. repeat split; try assumption. exists text. auto. }
  destruct (ReadInConfig v).
  - destruct (configure_all v fs) eqn:Hall.
    + split; [discriminate |]. intros (_ & _ & H). apply Hfail in H. discriminate.
    + split; [| reflexivity]. intros _.
      split; [reflexivity |]. split; [discriminate | apply Hfail; reflexivity].
  - destruct (configure_all v fs) eqn:Hall.
    + split; [discriminate |]. intros (_ & _ & H). apply Hfail in H. discriminate.
    + split; [| reflexivity]. intros _.
      split; [reflexivity |]. split; [discriminate | apply Hfail; reflexivity].
  - split; [discriminate |]. intros (_ & H & _). contradiction.
Qed.

Lemma pre_run_fatal_iff_witness :
  PersistentPreRunE "config.toml"
    (mkViper ReadOk (fun name => if String.eqb name "help" then Some "maybe" else None))
    (bool_flag "help" :: main_flags None None None) example_prefixes = PreRunFatal.
Proof.
  apply (pre_run_fatal_iff "config.toml"
           (mkViper ReadOk (fun name => if String.eqb name "help" then Some "maybe" else None))
           (bool_flag "help" :: main_flags None None None) example_prefixes);
    [reflexivity |].
  split; [reflexivity |]. split; [discriminate |].
  exists (bool_flag "help"), "maybe". simpl. auto 10.
Defined.

(** X16: the pre-run returns an error exactly when a configuration path
    is given and [viper.ReadInConfig] returns an error that is not a
    [ConfigFileNotFoundError]; flags and prefix variables are then as
    before, the six prefixes not even derived. *)
Theorem pre_run_error_iff (ConfigPath : string) (v : Viper) (fs fs0 : FlagSet)
        (p p0 : Prefixes) :
  PersistentPreRunE ConfigPath v fs p = PreRunErr fs0 p0 <->
  nonempty ConfigPath = true /\ ReadInConfig v = ReadFailed /\ fs0 = fs /\ p0 = p.
Proof.
  unfold PersistentPreRunE, nonempty.
  destruct (String.eqb ConfigPath "").
  { split; [discriminate | intros [H _]; discriminate]. }
  destruct (ReadInConfig v);
    try (destruct (visitAll (names fs) v fs);
         (split; [discriminate | intros (_ & H & _); discriminate])).
  split.
  - intros [= <- <-]. repeat split.
  - intros (_ & _ & -> & ->). reflexivity.
Qed.

(** X17: after a pre-run that read a configuration and returned nil, each
    of the six prefixes whose flag is a string flag with a non-empty
    settled value (command line, else configuration, else default) is that
    value. *)
Theorem settled_flag_is_prefix (ConfigPath : string) (v : Viper)
        (fs fs' : FlagSet) (p p' : Prefixes) (i : nat) (name : string) (f : Flag) :
  unique_names fs = true -> nonempty ConfigPath = true ->
  PersistentPreRunE ConfigPath v fs p = PreRunNil fs' p' ->
  nth_error bech_flag_names i = Some name ->
  Lookup fs name = Some f -> flag_is_string f = true ->
  nonempty (settled_value v f) = true ->
  nth_error (prefix_list p') i = Some (settled_value v f).
Proof.
  intros Hu Hc Hrun Hi Hl Hs Hne.
  destruct (pre_run_nil _ _ _ _ _ _ Hu Hc Hrun) as [Hall ->].
  pose proof (settled_string_flag _ _ _ _ _ Hall Hl Hs) as Hget.
  assert (Hor : forall fallback, flag_or (GetString fs' name) fallback = settled_value v f).
  { intros fallback. rewrite Hget. unfold flag_or. rewrite Hne. reflexivity. }
  rewrite setBechPrefixes_record. unfold prefix_list.
  cbn [AccountPrefix AccountPubkeyPrefix ValidatorPrefix ValidatorPubkeyPrefix
       ConsensusNodePrefix ConsensusNodePubkeyPrefix].
  unfold bech_flag_names in Hi.
  do 6 (destruct i as [| i]; [injection Hi as <-; simpl; rewrite Hor; reflexivity |]).
  destruct i; discriminate.
Qed.

Lemma settled_flag_is_prefix_witness :
  nth_error (prefix_list (setBechPrefixes example_settled example_prefixes)) 2
  = Some (settled_value example_config (flag_of "bech-validator-prefix" "" None)).
Proof.
  apply (settled_flag_is_prefix "config.toml" example_config example_flags
           example_settled example_prefixes
           (setBechPrefixes example_settled example_prefixes)
           2 "bech-validator-prefix" (flag_of "bech-validator-prefix" "" None));
    reflexivity.
Defined.

(** ** Execute and the program *)

Lemma In_query_filter (l : list Event) :
  In QueryDenomsMetadata l <-> filter is_query l <> [].
Proof.
  split.
  - intros Hin Hnil.
    assert (H : In QueryDenomsMetadata (filter is_query l))
      by (apply filter_In; split; [exact Hin | reflexivity]).
    rewrite Hnil in H. exact H.
  - intros Hne. destruct (filter is_query l) as [| x rest] eqn:Hf; [congruence |].
    assert (Hx : In x (filter is_query l)) by (rewrite Hf; left; reflexivity).
    apply filter_In in Hx. destruct Hx as [Hin Hq].
    destruct x; [exact Hin | discriminate].
Qed.

Lemma query_in_events (symbol : string) (c : float64) (e : Z) (node : NodeReply) :
  In QueryDenomsMetadata (events symbol c e node) <-> defers_to_node symbol c e = true.
Proof.
  rewrite In_query_filter. pose proof (queries_closed symbol c e node) as Hq.
  unfold queries in Hq. destruct (defers_to_node symbol c e).
  - split; [reflexivity |]. intros _ Hnil. rewrite Hnil in Hq. discriminate.
  - split; [| discriminate]. intros Hne.
    destruct (filter is_query (events symbol c e node)); [congruence | discriminate].
Qed.

Lemma In_Resolver (x : Event) (l : list Event) :
  In (Resolver x) (map Resolver l) <-> In x l.
Proof.
  split.
  - intros H. apply in_map_iff in H. destruct H as (y & [= ->] & Hy). exact Hy.
  - apply in_map.
Qed.

Lemma no_Resolver_before (x : Event) (p : Prefixes) (denom : string)
      (c : float64) (e : Z) :
  ~ In (Resolver x) (before_resolution p denom c e).
Proof. unfold before_resolution. simpl. intuition discriminate. Qed.

Lemma no_Listen_before (p : Prefixes) (denom : string) (c : float64) (e : Z) :
  ~ In ListenAndServe (before_resolution p denom c e).
Proof. unfold before_resolution. simpl. intuition discriminate. Qed.

Lemma no_Listen_in_Resolver (l : list Event) : ~ In ListenAndServe (map Resolver l).
Proof. intros H. apply in_map_iff in H. destruct H as (y & Hy & _). discriminate. Qed.

(** The events of [Execute] once the level parsed and the dial succeeded. *)
Lemma Execute_connected (o : Outside) (p : Prefixes) (denom : string)
      (c : float64) (e : Z) :
  level_parses o = true -> dial_succeeds o = true ->
  Execute o p denom c e =
    match resolve denom c e (node_reply o) with
    | Failed m =>
        (before_resolution p denom c e
           ++ map Resolver (events denom c e (node_reply o)),
         FatalResolver m)
    | Resolved symbol coefficient =>
        (before_resolution p denom c e
           ++ map Resolver (events denom c e (node_reply o))
           ++ [HandleMetrics; Listening; ListenAndServe],
         if serve_returns o then FatalListen else Serving symbol coefficient)
    end.
Proof.
  intros Hl Hd. unfold Execute, resolve, events. rewrite Hl, Hd. simpl negb. cbv iota.
  destruct (setDenom (node_reply o) (start denom c e)) as [[[] | m] s]; reflexivity.
Qed.

Lemma query_event_iff (o : Outside) (p : Prefixes) (denom : string)
        (c : float64) (e : Z) :
  In (Resolver QueryDenomsMetadata) (fst (Execute o p denom c e)) <->
  level_parses o = true /\ dial_succeeds o = true
  /\ defers_to_node denom c e = true.
Proof.
  destruct (level_parses o) eqn:Hl.
  2:{ unfold Execute. rewrite Hl. simpl. split; [intros [] | intros [H _]; discriminate]. }
  destruct (dial_succeeds o) eqn:Hd.
  2:{ unfold Execute. rewrite Hl, Hd. cbn [negb fst].
      split; [intros H; exfalso; exact (no_Resolver_before _ _ _ _ _ H)
             | intros (_ & H & _); discriminate]. }
  rewrite Execute_connected by assumption.
  rewrite <- (query_in_events denom c e (node_reply o)).
  destruct (resolve denom c e (node_reply o)); cbn [fst].
  - split.
    + intros H. repeat split. apply in_app_or in H. destruct H as [H | H].
      * exfalso. exact (no_Resolver_before _ _ _ _ _ H).
      * apply in_app_or in H. destruct H as [H | H]; [apply In_Resolver, H |].
        simpl in H. intuition discriminate.
    + intros (_ & _ & H). apply in_or_app. right. apply in_or_app. left.
      apply In_Resolver, H.
  - split.
    + intros H. repeat split. apply in_app_or in H. destruct H as [H | H].
      * exfalso. exact (no_Resolver_before _ _ _ _ _ H).
      * apply In_Resolver, H.
    + intros (_ & _ & H). apply in_or_app. right. apply In_Resolver, H.
Qed.

(** X18: [Execute] sends the DenomsMetadata query exactly when the log
    level parsed, the gRPC dial succeeded and the overrides leave the
    scaling to the node; a bad log level or a failed dial ends the run
    before any query. *)
Theorem query_needs_level_and_dial (o : Outside) (p : Prefixes) (denom : string)
        (c : float64) (e : Z) :
  In (Resolver QueryDenomsMetadata) (fst (Execute o p denom c e)) <->
  level_parses o = true /\ dial_succeeds o = true
  /\ defers_to_node denom c e = true.
Proof. apply query_event_iff. Qed.

(** X19: [Execute] calls [http.ListenAndServe] exactly when the log level
    parsed, the dial succeeded and the denomination was resolved, and it
    ends serving with a symbol and a coefficient exactly when, besides,
    these are the resolved pair and [ListenAndServe] does not return: the
    exporter never serves with an unresolved denomination. *)
Theorem listener_needs_resolution (o : Outside) (p : Prefixes) (denom : string)
        (c : float64) (e : Z) :
  (In ListenAndServe (fst (Execute o p denom c e)) <->
   level_parses o = true /\ dial_succeeds o = true
   /\ exists symbol coefficient,
        resolve denom c e (node_reply o) = Resolved symbol coefficient)
  /\ (forall symbol coefficient,
        snd (Execute o p denom c e) = Serving symbol coefficient <->
        level_parses o = true /\ dial_succeeds o = true /\ serve_returns o = false
        /\ resolve denom c e (node_reply o) = Resolved symbol coefficient).
Proof.
  destruct (level_parses o) eqn:Hl.
  2:{ unfold Execute. rewrite Hl. simpl. split.
      - split; [intros [] | intros [H _]; discriminate].
      - intros s k. split; [discriminate | intros [H _]; discriminate]. }
  destruct (dial_succeeds o) eqn:Hd.
  2:{ unfold Execute. rewrite Hl, Hd. simpl. split.
      - split; [intros H; exfalso; intuition discriminate
               | intros (_ & H & _); discriminate].
      - intros s k. split; [discriminate | intros (_ & H & _); discriminate]. }
  rewrite Execute_connected by assumption.
  destruct (resolve denom c e (node_reply o)) as [symbol coefficient | m].
  - cbn [fst snd]. split.
    + split.
      * intros _. repeat split. exists symbol, coefficient. reflexivity.
      * intros _. apply in_or_app. right. apply in_or_app. right.
        simpl. auto.
    + intros s k. destruct (serve_returns o).
      * split; [discriminate | intros (_ & _ & H & _); discriminate].
      * split.
        -- intros [= <- <-]. repeat split.
        -- intros (_ & _ & _ & [= <- <-]). reflexivity.
  - cbn [fst snd]. split.
    + split.
      * intros H. exfalso. apply in_app_or in H. destruct H as [H | H].
        -- exact (no_Listen_before _ _ _ _ H).
        -- exact (no_Listen_in_Resolver _ H).
      * intros (_ & _ & s & k & H). discriminate.
    + intros s k. split; [discriminate | intros (_ & _ & _ & H); discriminate].
Qed.

(** X20: as [main] wires the variables ([Denom] is the variable of the
    flag "api"; no flag sets [DenomCoefficient] and [DenomExponent], which
    keep Go's zero values) and with no configuration path, a non-empty
    "api" value is taken as the symbol with coefficient 0: the program
    serves with that pair and never sends the DenomsMetadata query. *)
Theorem api_value_served_unscaled (v : Viper) (fs : FlagSet) (p : Prefixes)
        (o : Outside) (f : Flag) :
  Lookup fs "api" = Some f -> flag_is_string f = true ->
  nonempty (flag_Value f) = true ->
  level_parses o = true -> dial_succeeds o = true -> serve_returns o = false ->
  exists events,
    run_root "" v fs p zero 0 o = Ran events (Serving (flag_Value f) zero)
    /\ ~ In (Resolver QueryDenomsMetadata) events.
Proof.
  intros Hf Hs Hv Hl Hd Hr. unfold run_root, PersistentPreRunE. simpl String.eqb.
  cbv iota.
  assert (Hdenom : Denom_of fs = flag_Value f)
    by (unfold Denom_of, GetString; rewrite Hf, Hs; reflexivity).
  rewrite Hdenom.
  pose proof (query_event_iff o (setBechPrefixes fs p) (flag_Value f) zero 0)
    as Hq.
  rewrite Execute_connected in * by assumption.
  apply nonempty_neq in Hv.
  assert (Hres : resolve (flag_Value f) zero 0 (node_reply o)
                 = Resolved (flag_Value f) zero).
  { unfold resolve. rewrite run_coefficient by (assumption || reflexivity). reflexivity. }
  rewrite Hres in *. rewrite Hr. eexists. split; [reflexivity |].
  intros Hin. apply Hq in Hin. destruct Hin as (_ & _ & Hdef).
  rewrite not_defers in Hdef by (auto; left; reflexivity). discriminate.
Qed.

Lemma api_value_served_unscaled_witness :
  exists events,
    run_root "" example_config (main_flags None None None) example_prefixes zero 0
             (mkOutside true true ReplyErr false)
    = Ran events (Serving "http://127.0.0.1:1317" zero)
    /\ ~ In (Resolver QueryDenomsMetadata) events.
Proof.
  apply (api_value_served_unscaled example_config (main_flags None None None)
           example_prefixes (mkOutside true true ReplyErr false)
           (flag_of "api" "http://127.0.0.1:1317" None)); reflexivity.
Defined.

(** X21: with no configuration path and no usable prefix flag, a program
    whose log level parses hands the SDK configuration the prefixes derived
    from [Prefix] (account: "" and "pub"; validator: "valoper" and
    "valoperpub"; consensus node: "valcons" and "valconspub") and seals it,
    all before it dials the node. *)
Theorem derived_prefixes_sealed (v : Viper) (fs : FlagSet) (p : Prefixes)
        (c : float64) (e : Z) (o : Outside) :
  no_bech_flags fs = true -> level_parses o = true ->
  exists final rest,
    run_root "" v fs p c e o
    = Ran (Started (setBechPrefixes fs p) (Denom_of fs) c e
           :: SetBech32PrefixForAccount (Prefix p) (String.append (Prefix p) "pub")
           :: SetBech32PrefixForValidator (String.append (Prefix p) "valoper")
                                          (String.append (Prefix p) "valoperpub")
           :: SetBech32PrefixForConsensusNode (String.append (Prefix p) "valcons")
                                              (String.append (Prefix p) "valconspub")
           :: Seal :: Dial :: rest)
          final.
Proof.
  intros Hno Hl.
  assert (Hbefore : before_resolution (setBechPrefixes fs p) (Denom_of fs) c e
            = [Started (setBechPrefixes fs p) (Denom_of fs) c e;
               SetBech32PrefixForAccount (Prefix p) (String.append (Prefix p) "pub");
               SetBech32PrefixForValidator (String.append (Prefix p) "valoper")
                                           (String.append (Prefix p) "valoperpub");
               SetBech32PrefixForConsensusNode (String.append (Prefix p) "valcons")
                                               (String.append (Prefix p) "valconspub");
               Seal; Dial]).
  { unfold before_resolution. rewrite setBechPrefixes_record at 2 3 4 5 6 7.
    cbn [AccountPrefix AccountPubkeyPrefix ValidatorPrefix ValidatorPubkeyPrefix
         ConsensusNodePrefix ConsensusNodePubkeyPrefix].
    unfold no_bech_flags, bech_flag_names in Hno. simpl in Hno.
    repeat (apply andb_true_iff in Hno; destruct Hno as [?H Hno]).
    repeat match goal with
           | Hx : negb (usable _) = true |- _ => apply negb_true_iff in Hx
           end.
    rewrite !flag_or_unusable by assumption. reflexivity. }
  unfold run_root, PersistentPreRunE. simpl String.eqb. cbv iota.
  unfold Execute. rewrite Hl. cbn [negb]. rewrite Hbefore.
  destruct (dial_succeeds o); cbn [negb].
  - destruct (setDenom (node_reply o) (start (Denom_of fs) c e)) as [[[] | m] s];
      eexists; eexists; simpl; reflexivity.
  - eexists; exists []; reflexivity.
Qed.

Lemma derived_prefixes_sealed_witness :
  exists final rest,
    run_root "" example_config (main_flags None None None) example_prefixes zero 0
             (mkOutside true false ReplyErr false)
    = Ran (Started (setBechPrefixes (main_flags None None None) example_prefixes)
                   (Denom_of (main_flags None None None)) zero 0
           :: SetBech32PrefixForAccount (Prefix example_prefixes)
                (String.append (Prefix example_prefixes) "pub")
           :: SetBech32PrefixForValidator
                (String.append (Prefix example_prefixes) "valoper")
                (String.append (Prefix example_prefixes) "valoperpub")
           :: SetBech32PrefixForConsensusNode
                (String.append (Prefix example_prefixes) "valcons")
                (String.append (Prefix example_prefixes) "valconspub")
           :: Seal :: Dial :: rest)
          final.
Proof.
  apply (derived_prefixes_sealed example_config (main_flags None None None)
           example_prefixes zero 0 (mkOutside true false ReplyErr false));
    reflexivity.
Defined.
